(** * PyReshaper: the input specification layer

    A shallow embedding of [source/pyreshaper/specification.py]: the factory
    [create_specifier], the base class [Specifier] and its only concrete
    variant [Slice2SeriesSpecifier], together with the part of [os.path]
    (POSIX flavour) the validation calls. *)

From Stdlib Require Import ZArith Ascii.
From Stdlib Require String.
From stdpp Require Import base option list strings gmap.

Local Open Scope Z_scope.

(** ** Python values

    Attributes of a specifier are dynamically typed: [validate_types] exists
    because any of them may hold a value of another type. *)

#[warnings="-register-all"]
Inductive pyval : Type :=
  | PNone
  | PBool (b : bool)
  | PInt (z : Z)
  | PStr (s : string)
  | PList (l : list pyval).

(** [isinstance(v, str)] and [isinstance(v, list)]. *)
Definition isinstance_str (v : pyval) : bool :=
  match v with PStr _ => true | _ => false end.

Definition isinstance_list (v : pyval) : bool :=
  match v with PList _ => true | _ => false end.

(** ** Strings *)

Module Str.

Definition slash : ascii := "/"%char.

Definition is_slash (c : ascii) : bool := Ascii.eqb c slash.

(** [s.startswith(p)] *)
Definition startswith (p s : string) : bool := String.prefix p s.

Fixpoint rev_acc (s acc : string) : string :=
  match s with
  | EmptyString => acc
  | String c s' => rev_acc s' (String c acc)
  end.

Definition rev (s : string) : string := rev_acc s EmptyString.

(** [s.endswith(p)] *)
Definition endswith (p s : string) : bool :=
  String.prefix (rev p) (rev s).

(** [c * n] for a one-character string [c]. *)
Fixpoint repeat (c : ascii) (n : nat) : string :=
  match n with
  | O => EmptyString
  | S n' => String c (repeat c n')
  end.

(** [s[i:]] with Python's treatment of a negative or too large start. *)
Definition slice_from (i : Z) (s : string) : string :=
  let n := Z.of_nat (String.length s) in
  let start := if i <? 0 then Z.max (n + i) 0 else Z.min i n in
  String.substring (Z.to_nat start) (Z.to_nat (n - start)) s.

(** [s[:i]] for [0 <= i]. *)
Definition slice_to (i : nat) (s : string) : string :=
  String.substring 0 i s.

(** [s.split('/')]: never the empty list. *)
Fixpoint split (s : string) : list string :=
  match s with
  | EmptyString => [EmptyString]
  | String c s' =>
      if is_slash c then EmptyString :: split s'
      else match split s' with
           | h :: t => String c h :: t
           | [] => [String c EmptyString]
           end
  end.

(** ['/'.join(l)] *)
Fixpoint join (l : list string) : string :=
  match l with
  | [] => EmptyString
  | [x] => x
  | x :: rest => x +:+ String slash (join rest)
  end.

(** [s.rfind('/')]: the index of the last slash, [-1] when there is none. *)
Fixpoint rfind_from (k : Z) (s : string) (found : Z) : Z :=
  match s with
  | EmptyString => found
  | String c s' => rfind_from (k + 1) s' (if is_slash c then k else found)
  end.

Definition rfind (s : string) : Z := rfind_from 0 s (-1).

(** [s.rstrip('/')] *)
Fixpoint lstrip (s : string) : string :=
  match s with
  | String c s' => if is_slash c then lstrip s' else s
  | EmptyString => EmptyString
  end.

Definition rstrip (s : string) : string := rev (lstrip (rev s)).

Fixpoint has_slash (s : string) : bool :=
  match s with
  | EmptyString => false
  | String c s' => is_slash c || has_slash s'
  end.

End Str.

(** ** [os.path] on a POSIX system *)

Module ospath.

(** [isabs(s)] *)
Definition isabs (s : string) : bool := Str.startswith "/" s.

(** [join(a, b)]: one iteration of the loop over the trailing arguments. *)
Definition join (a b : string) : string :=
  if Str.startswith "/" b then b
  else if String.eqb a EmptyString || Str.endswith "/" a then a +:+ b
  else a +:+ "/" +:+ b.

(** The number of leading slashes [normpath] keeps: POSIX allows one or
    two and treats three or more as one. *)
Definition initial_slashes (path : string) : nat :=
  if Str.startswith "/" path then
    if Str.startswith "//" path && negb (Str.startswith "///" path)
    then 2%nat else 1%nat
  else 0%nat.

(** The body of [for comp in comps] in [normpath]. *)
Definition norm_step (initial : nat) (new_comps : list string)
    (comp : string) : list string :=
  if String.eqb comp EmptyString || String.eqb comp "." then new_comps
  else if negb (String.eqb comp "..")
          || (Nat.eqb initial 0 && bool_decide (new_comps = []))
          || bool_decide (last new_comps = Some "..")
  then new_comps ++ [comp]
  else if bool_decide (new_comps = []) then new_comps
  else removelast new_comps.

Definition norm_comps (initial : nat) (comps : list string) : list string :=
  fold_left (norm_step initial) comps [].

Definition normpath (path : string) : string :=
  if String.eqb path EmptyString then "."
  else
    let initial := initial_slashes path in
    let comps := norm_comps initial (Str.split path) in
    let path' := Str.repeat Str.slash initial +:+ Str.join comps in
    if String.eqb path' EmptyString then "." else path'.

(** [abspath(path)] with [cwd] the result of [os.getcwd()]. *)
Definition abspath (cwd path : string) : string :=
  normpath (if isabs path then path else join cwd path).

(** [dirname(p)] *)
Definition dirname (p : string) : string :=
  let i := Str.rfind p + 1 in
  let head := Str.slice_to (Z.to_nat i) p in
  if negb (String.eqb head EmptyString)
     && negb (String.eqb head (Str.repeat Str.slash (String.length head)))
  then Str.rstrip head else head.

End ospath.

(** ** The filesystem the checks consult

    Only metadata is read: [os.getcwd()], [os.path.isfile] and
    [os.path.isdir].  The two queries answer for every string (a path that
    cannot be examined is neither a file nor a directory), and POSIX
    [getcwd] yields an absolute pathname. *)

Record FileSystem : Type := {
  getcwd : string;
  isfile : string → bool;
  isdir : string → bool;
  getcwd_abs : ospath.isabs getcwd = true
}.

(** ** Exceptions and the instance state *)

Inductive exn : Type :=
  | TypeError (msg : string)
  | ValueError (msg : string).

Inductive outcome (A : Type) : Type :=
  | Return (a : A)
  | Raise (e : exn).
Arguments Return {A} a.
Arguments Raise {A} e.

(** The attributes of a [Slice2SeriesSpecifier] instance: three assigned by
    [Specifier.__init__], three by the subclass. *)
Record Slice2SeriesSpecifier : Type := {
  specifier_type : pyval;
  input_file_list : pyval;
  netcdf_format : pyval;
  output_file_prefix : pyval;
  output_file_suffix : pyval;
  time_variant_metadata : pyval
}.

Inductive attr : Type :=
  | a_specifier_type
  | a_input_file_list
  | a_netcdf_format
  | a_output_file_prefix
  | a_output_file_suffix
  | a_time_variant_metadata.

Definition attr_get (a : attr) (self : Slice2SeriesSpecifier) : pyval :=
  match a with
  | a_specifier_type => specifier_type self
  | a_input_file_list => input_file_list self
  | a_netcdf_format => netcdf_format self
  | a_output_file_prefix => output_file_prefix self
  | a_output_file_suffix => output_file_suffix self
  | a_time_variant_metadata => time_variant_metadata self
  end.

Definition attr_set (a : attr) (v : pyval) (self : Slice2SeriesSpecifier)
    : Slice2SeriesSpecifier :=
  {| specifier_type :=
       match a with a_specifier_type => v | _ => specifier_type self end;
     input_file_list :=
       match a with a_input_file_list => v | _ => input_file_list self end;
     netcdf_format :=
       match a with a_netcdf_format => v | _ => netcdf_format self end;
     output_file_prefix :=
       match a with a_output_file_prefix => v | _ => output_file_prefix self end;
     output_file_suffix :=
       match a with a_output_file_suffix => v | _ => output_file_suffix self end;
     time_variant_metadata :=
       match a with
       | a_time_variant_metadata => v
       | _ => time_variant_metadata self
       end |}.

(** ** Methods as computations over [self]

    A method either returns or raises, and in both cases leaves [self] in
    some state: [validate] mutates two attributes on its way. *)

Definition M (A : Type) : Type :=
  Slice2SeriesSpecifier → outcome A * Slice2SeriesSpecifier.

Definition ret {A} (a : A) : M A := λ self, (Return a, self).

Definition raise {A} (e : exn) : M A := λ self, (Raise e, self).

Definition bind {A B} (m : M A) (k : A → M B) : M B :=
  λ self,
    match m self with
    | (Return a, self') => k a self'
    | (Raise e, self') => (Raise e, self')
    end.

Notation "x <~ m ; k" := (bind m (λ x, k))
  (at level 100, m at next level, right associativity,
   format "'[v' x  <~  m ; '/' k ']'").
Notation "m ;; k" := (bind m (λ _, k))
  (at level 100, right associativity, format "'[v' m  ;; '/' k ']'").

(** [self.a] and [self.a = v] *)
Definition getattr (a : attr) : M pyval := λ self, (Return (attr_get a self), self).

Definition setattr (a : attr) (v : pyval) : M unit :=
  λ self, (Return tt, attr_set a v self).

(** [if c: body] *)
Definition when (c : bool) (body : M unit) : M unit :=
  if c then body else ret tt.

(** [for x in xs: body(x)] *)
Fixpoint for_each {A} (xs : list A) (body : A → M unit) : M unit :=
  match xs with
  | [] => ret tt
  | x :: xs' => body x ;; for_each xs' body
  end.

(** The value phase applies [len], iteration, [os.path] functions, slicing
    and string concatenation to attributes whose types the type phase has
    already established.  The model takes the attribute at that type; at
    any other type it raises [TypeError], a branch [validate] never takes
    ([validate_values_typed] below). *)
Definition expect_list (v : pyval) : M (list pyval) :=
  match v with
  | PList l => ret l
  | _ => raise (TypeError "expected a list")
  end.

Definition expect_str (v : pyval) : M string :=
  match v with
  | PStr s => ret s
  | _ => raise (TypeError "expected a string")
  end.

(** ** class Specifier *)

(** [Specifier.__init__(self, infiles, ncfmt)] *)
Definition Specifier_init (infiles ncfmt : pyval) : M unit :=
  setattr a_specifier_type (PStr "undetermined") ;;
  setattr a_input_file_list infiles ;;
  setattr a_netcdf_format ncfmt.

(** [Specifier.validate_types(self)] *)
Definition Specifier_validate_types : M unit :=
  l <~ getattr a_input_file_list ;
  when (negb (isinstance_list l))
    (raise (TypeError "Input file list must be a list")) ;;
  names <~ expect_list l ;
  for_each names (λ ifile_name,
    when (negb (isinstance_str ifile_name))
      (raise (TypeError "Input file names must be given as strings"))) ;;
  fmt <~ getattr a_netcdf_format ;
  when (negb (isinstance_str fmt))
    (raise (TypeError "NetCDF format must be given as a string")).

Definition valid_formats : list string := ["netcdf"; "netcdf4"; "netcdf4c"].

(** [x in l] for a list of strings. *)
Definition str_in (x : string) (l : list string) : bool :=
  existsb (String.eqb x) l.

(** [Specifier.validate_values(self)] *)
Definition Specifier_validate_values (fs : FileSystem) : M unit :=
  l <~ getattr a_input_file_list ;
  names <~ expect_list l ;
  when (Nat.eqb (length names) 0)
    (raise (ValueError "There must be at least one input file given.")) ;;
  for_each names (λ v,
    ifile_name <~ expect_str v ;
    when (negb (isfile fs ifile_name))
      (raise (ValueError
         ("Input file " +:+ ifile_name +:+ " is not a regular file")))) ;;
  v <~ getattr a_netcdf_format ;
  fmt <~ expect_str v ;
  when (negb (str_in fmt valid_formats))
    (raise (ValueError
       ("Output NetCDF file format " +:+ fmt +:+ " is not valid"))).

(** ** class Slice2SeriesSpecifier(Specifier) *)

(** [Slice2SeriesSpecifier.__init__(self, infiles, ncfmt, prefix, suffix,
    metadata)]: the type string is assigned first, the base class
    constructor is called next. *)
Definition Slice2SeriesSpecifier_init
    (infiles ncfmt prefix suffix metadata : pyval) : M unit :=
  setattr a_specifier_type (PStr "slice-to-series") ;;
  Specifier_init infiles ncfmt ;;
  setattr a_output_file_prefix prefix ;;
  setattr a_output_file_suffix suffix ;;
  setattr a_time_variant_metadata metadata.

(** [Slice2SeriesSpecifier.validate_types(self)] *)
Definition validate_types : M unit :=
  Specifier_validate_types ;;
  prefix <~ getattr a_output_file_prefix ;
  when (negb (isinstance_str prefix))
    (raise (TypeError "Output file prefix must be given as a string")) ;;
  suffix <~ getattr a_output_file_suffix ;
  when (negb (isinstance_str suffix))
    (raise (TypeError "Output file suffix must be given as a string")) ;;
  metadata <~ getattr a_time_variant_metadata ;
  when (negb (isinstance_list metadata))
    (raise (TypeError "Input file list must be a list")) ;;
  var_names <~ expect_list metadata ;
  for_each var_names (λ var_name,
    when (negb (isinstance_str var_name))
      (raise (TypeError
         ("Time-variant metadata variable names must be " +:+
          "given as strings")))).

(** [Slice2SeriesSpecifier.validate_values(self)] *)
Definition validate_values (fs : FileSystem) : M unit :=
  Specifier_validate_values fs ;;
  v <~ getattr a_output_file_prefix ;
  prefix <~ expect_str v ;
  let abs_output_prefix := ospath.abspath (getcwd fs) prefix in
  let abs_output_dir := ospath.dirname abs_output_prefix in
  when (negb (isdir fs abs_output_dir))
    (raise (ValueError
       ("Output directory " +:+ abs_output_dir +:+
        " implied in output prefix " +:+ prefix +:+ " is not valid"))) ;;
  setattr a_output_file_prefix (PStr abs_output_prefix) ;;
  v <~ getattr a_output_file_suffix ;
  suffix <~ expect_str v ;
  when (negb (String.eqb (Str.slice_from (-3) suffix) ".nc"))
    (setattr a_output_file_suffix (PStr (suffix +:+ ".nc"))).

(** [Specifier.validate(self)], inherited unchanged. *)
Definition validate (fs : FileSystem) : M unit :=
  validate_types ;;
  validate_values fs.

(** ** Construction *)

(** A new instance before [__init__] has run: no attribute is assigned
    yet, and [__init__] assigns all six before any is read
    ([init_assigns_all]). *)
Definition fresh_instance : Slice2SeriesSpecifier :=
  {| specifier_type := PNone; input_file_list := PNone;
     netcdf_format := PNone; output_file_prefix := PNone;
     output_file_suffix := PNone; time_variant_metadata := PNone |}.

(** The keyword parameters of [Slice2SeriesSpecifier.__init__]. *)
Definition init_params : list string :=
  ["infiles"; "ncfmt"; "prefix"; "suffix"; "metadata"].

(** The defaults [infiles=[]] and [metadata=[]] of
    [Slice2SeriesSpecifier.__init__] are two list objects, created once when
    the [def] is executed and shared by every call that omits the keyword.
    [__init__] stores the object itself in the attribute, so a caller that
    appends to the attribute of one instance changes what the next default
    construction receives.  A call therefore depends on what the two
    objects hold at that moment: [default_lists] is that content.  The
    defaults of [ncfmt], [prefix] and [suffix] are strings, which nothing
    mutates. *)
Record default_lists : Type := {
  default_infiles : list pyval;
  default_metadata : list pyval
}.

(** The two default lists as the [def] creates them, before any
    mutation. *)
Definition initial_defaults : default_lists :=
  {| default_infiles := []; default_metadata := [] |}.

(** The call of [Slice2SeriesSpecifier] with the keyword dictionary
    [kwargs] unpacked, at a moment when the shared default lists hold [d]: a
    keyword that is not a parameter of [__init__] makes the call itself
    raise [TypeError]; an absent one takes the default of the signature,
    which for [infiles] and [metadata] is the shared list with its current
    content. *)
Definition new_Slice2SeriesSpecifier (d : default_lists)
    (kwargs : gmap string pyval) : outcome Slice2SeriesSpecifier :=
  if bool_decide (dom kwargs ⊆ list_to_set init_params) then
    Return (snd (Slice2SeriesSpecifier_init
      (default (PList (default_infiles d)) (kwargs !! "infiles"))
      (default (PStr "netcdf4c") (kwargs !! "ncfmt"))
      (default (PStr "tseries.") (kwargs !! "prefix"))
      (default (PStr ".nc") (kwargs !! "suffix"))
      (default (PList (default_metadata d)) (kwargs !! "metadata"))
      fresh_instance))
  else Raise (TypeError "__init__() got an unexpected keyword argument").

(** [create_specifier(spec_type, **kwargs)], called when the shared
    default lists hold [d].  A caller that omits [spec_type] passes its
    default, ["slice-to-series"]. *)
Definition create_specifier (d : default_lists) (spec_type : pyval)
    (kwargs : gmap string pyval) : outcome Slice2SeriesSpecifier :=
  match spec_type with
  | PStr s =>
      if String.eqb s "slice-to-series" then new_Slice2SeriesSpecifier d kwargs
      else Raise (ValueError ("Specifier of type " +:+ s +:+ " is not defined."))
  | _ => Raise (TypeError "Specification type must be given as a string.")
  end.

(** * Vocabulary of the statements

    Predicates on instances, filesystems and outcomes in which the
    properties below are stated. *)

Definition all_str (l : list pyval) : bool := forallb isinstance_str l.

Definition str_list (v : pyval) : bool :=
  match v with PList l => all_str l | _ => false end.

(** Every attribute [validate_types] inspects has the expected shape. *)
Definition well_typed (self : Slice2SeriesSpecifier) : bool :=
  str_list (input_file_list self)
  && isinstance_str (netcdf_format self)
  && isinstance_str (output_file_prefix self)
  && isinstance_str (output_file_suffix self)
  && str_list (time_variant_metadata self).

(** The first listed name that is not a regular file. *)
Definition first_missing (fs : FileSystem) (names : list string)
    : option string :=
  List.find (λ f, negb (isfile fs f)) names.

(** [s] ends in the three characters [.nc]. *)
Definition ends_in_nc (s : string) : Prop := ∃ stem, s = stem +:+ ".nc".

(** [needle] occurs in [s]. *)
Definition contains (s needle : string) : Prop :=
  ∃ before after, s = before +:+ needle +:+ after.

Definition raises_TypeError {A} (r : outcome A * Slice2SeriesSpecifier) : Prop :=
  ∃ msg, r.1 = Raise (TypeError msg).

Definition raises_ValueError {A} (r : outcome A * Slice2SeriesSpecifier) : Prop :=
  ∃ msg, r.1 = Raise (ValueError msg).

Definition completes {A} (r : outcome A * Slice2SeriesSpecifier) : Prop :=
  ∃ a, r.1 = Return a.

(** The suffix after the fix-up at the end of [validate_values]. *)
Definition normalized_suffix (suffix : string) : string :=
  if String.eqb (Str.slice_from (-3) suffix) ".nc" then suffix
  else suffix +:+ ".nc".

(** The attributes read by the value phase, at the types the type phase
    has established. *)
Record typed_view (self : Slice2SeriesSpecifier)
    (names : list string) (fmt prefix suffix : string) : Prop := {
  tv_names : input_file_list self = PList (PStr <$> names);
  tv_fmt : netcdf_format self = PStr fmt;
  tv_prefix : output_file_prefix self = PStr prefix;
  tv_suffix : output_file_suffix self = PStr suffix
}.

(** The four checks of the value phase in the order of the code, and the
    state a passing instance is left in. *)
Definition value_phase (fs : FileSystem) (self : Slice2SeriesSpecifier)
    (names : list string) (fmt prefix suffix : string)
    : outcome unit * Slice2SeriesSpecifier :=
  let abs_output_prefix := ospath.abspath (getcwd fs) prefix in
  let abs_output_dir := ospath.dirname abs_output_prefix in
  if Nat.eqb (length names) 0 then
    (Raise (ValueError "There must be at least one input file given."), self)
  else match first_missing fs names with
  | Some f =>
      (Raise (ValueError ("Input file " +:+ f +:+ " is not a regular file")),
       self)
  | None =>
      if negb (str_in fmt valid_formats) then
        (Raise (ValueError
           ("Output NetCDF file format " +:+ fmt +:+ " is not valid")), self)
      else if negb (isdir fs abs_output_dir) then
        (Raise (ValueError
           ("Output directory " +:+ abs_output_dir +:+
            " implied in output prefix " +:+ prefix +:+ " is not valid")),
         self)
      else
        (Return tt,
         attr_set a_output_file_suffix (PStr (normalized_suffix suffix))
           (attr_set a_output_file_prefix (PStr abs_output_prefix) self))
  end.

(** A component [normpath] keeps in an absolute path: a name, neither
    empty nor [.] nor [..]. *)
Definition plain (c : string) : Prop :=
  c ≠ EmptyString ∧ c ≠ "." ∧ c ≠ ".." ∧ Str.has_slash c = false.

(** The default construction [create_specifier("slice-to-series")] while
    the shared default lists are still empty. *)
Definition default_instance : Slice2SeriesSpecifier :=
  {| specifier_type := PStr "undetermined";
     input_file_list := PList [];
     netcdf_format := PStr "netcdf4c";
     output_file_prefix := PStr "tseries.";
     output_file_suffix := PStr ".nc";
     time_variant_metadata := PList [] |}.

(** The keywords of a call all name parameters of [__init__]. *)
Definition known_keywords (kwargs : gmap string pyval) : Prop :=
  dom kwargs ⊆ list_to_set init_params.

(** Some attribute has the wrong shape: the seven ways the type phase can
    fail. *)
Definition ill_typed (self : Slice2SeriesSpecifier) : Prop :=
  isinstance_list (input_file_list self) = false
  ∨ (∃ l x, input_file_list self = PList l ∧ x ∈ l ∧ isinstance_str x = false)
  ∨ isinstance_str (netcdf_format self) = false
  ∨ isinstance_str (output_file_prefix self) = false
  ∨ isinstance_str (output_file_suffix self) = false
  ∨ isinstance_list (time_variant_metadata self) = false
  ∨ (∃ l x, time_variant_metadata self = PList l ∧ x ∈ l
            ∧ isinstance_str x = false).

(** The parent directory of the absolute form of [prefix]. *)
Definition output_dir (fs : FileSystem) (prefix : string) : string :=
  ospath.dirname (ospath.abspath (getcwd fs) prefix).

(** Some value check fails: the four ways the value phase can fail. *)
Definition bad_values (fs : FileSystem) (names : list string)
    (fmt prefix : string) : Prop :=
  names = []
  ∨ (∃ f, f ∈ names ∧ isfile fs f = false)
  ∨ fmt ∉ valid_formats
  ∨ isdir fs (output_dir fs prefix) = false.

(** The instance a passing [validate] leaves. *)
Definition normalized (fs : FileSystem) (self : Slice2SeriesSpecifier)
    (prefix suffix : string) : Slice2SeriesSpecifier :=
  attr_set a_output_file_suffix (PStr (normalized_suffix suffix))
    (attr_set a_output_file_prefix
       (PStr (ospath.abspath (getcwd fs) prefix)) self).

(** [validate] has three outcomes: the type phase raises and leaves the
    instance alone; the value phase raises and leaves the instance alone;
    both pass and the two output attributes are normalised. *)
Inductive validate_outcome (fs : FileSystem) (self : Slice2SeriesSpecifier)
    : outcome unit * Slice2SeriesSpecifier → Prop :=
  | vo_type_error msg :
      ill_typed self →
      validate_outcome fs self (Raise (TypeError msg), self)
  | vo_value_error names fmt prefix suffix msg :
      ¬ ill_typed self →
      typed_view self names fmt prefix suffix →
      bad_values fs names fmt prefix →
      validate_outcome fs self (Raise (ValueError msg), self)
  | vo_pass names fmt prefix suffix :
      ¬ ill_typed self →
      typed_view self names fmt prefix suffix →
      ¬ bad_values fs names fmt prefix →
      validate_outcome fs self (Return tt, normalized fs self prefix suffix).

(** Every attribute has the shape the type phase asks for. *)
Definition fully_typed (self : Slice2SeriesSpecifier) : Prop :=
  ∃ names fmt prefix suffix metadata,
    input_file_list self = PList (PStr <$> names)
    ∧ netcdf_format self = PStr fmt
    ∧ output_file_prefix self = PStr prefix
    ∧ output_file_suffix self = PStr suffix
    ∧ time_variant_metadata self = PList (PStr <$> metadata).

(** A filesystem and an instance to evaluate on. *)
Definition fs0 : FileSystem :=
  {| getcwd := "/home/u";
     isfile := λ p, bool_decide (p ∈ ["/data/a.nc"; "/data/b.nc"]);
     isdir := λ p,
       bool_decide (p ∈ ["/"; "/home"; "/home/u"; "/data"; "/home/u/relative"]);
     getcwd_abs := eq_refl |}.

Definition spec0 (prefix suffix : string) : Slice2SeriesSpecifier :=
  {| specifier_type := PStr "undetermined";
     input_file_list := PList (PStr <$> ["/data/a.nc"; "/data/b.nc"]);
     netcdf_format := PStr "netcdf4";
     output_file_prefix := PStr prefix;
     output_file_suffix := PStr suffix;
     time_variant_metadata := PList (PStr <$> ["time"; "lat"]) |}.

(** The message of the first type check that fails, in the order in which
    [validate_types] runs them: the three checks of the base class, then
    the four of the subclass. *)
Definition first_type_error (self : Slice2SeriesSpecifier) : option string :=
  if negb (isinstance_list (input_file_list self)) then
    Some "Input file list must be a list"
  else if negb (str_list (input_file_list self)) then
    Some "Input file names must be given as strings"
  else if negb (isinstance_str (netcdf_format self)) then
    Some "NetCDF format must be given as a string"
  else if negb (isinstance_str (output_file_prefix self)) then
    Some "Output file prefix must be given as a string"
  else if negb (isinstance_str (output_file_suffix self)) then
    Some "Output file suffix must be given as a string"
  else if negb (isinstance_list (time_variant_metadata self)) then
    Some "Input file list must be a list"
  else if negb (str_list (time_variant_metadata self)) then
    Some "Time-variant metadata variable names must be given as strings"
  else None.

(** A computation that assigns no attribute, whether it returns or
    raises. *)
Definition readonly {A} (m : M A) : Prop := ∀ self, (m self).2 = self.

(** [s] ends in a slash. *)
Definition ends_in_slash (s : string) : Prop := ∃ stem, s = stem +:+ "/".

(** A filesystem with another working directory and other files besides
    those of [fs0]. *)
Definition fs1 : FileSystem :=
  {| getcwd := "/srv";
     isfile := λ p,
       bool_decide (p ∈ ["/data/a.nc"; "/data/b.nc"; "/data/c.nc"]);
     isdir := λ p, bool_decide (p ∈ ["/"; "/srv"; "/home/u"; "/home/u/relative"]);
     getcwd_abs := eq_refl |}.

(** * Proofs *)

Arguments ospath.abspath : simpl never.
Arguments ospath.dirname : simpl never.
Arguments Str.slice_from : simpl never.
Arguments String.append : simpl never.
Arguments String.eqb : simpl never.
Arguments str_in : simpl never.

(** ** Path and slice functions on sample inputs *)

Example normpath_dots : ospath.normpath "/a/./b//../c/" = "/a/c".
Proof. reflexivity. Qed.

Example normpath_two_slashes : ospath.normpath "//a/../../b" = "//b".
Proof. reflexivity. Qed.

Example normpath_three_slashes : ospath.normpath "///a" = "/a".
Proof. reflexivity. Qed.

Example normpath_relative_up : ospath.normpath "a/../../b/.." = "..".
Proof. reflexivity. Qed.

Example normpath_to_dot : ospath.normpath "a/.." = ".".
Proof. reflexivity. Qed.

Example abspath_relative :
  ospath.abspath "/home/u" "relative/prefix_" = "/home/u/relative/prefix_".
Proof. reflexivity. Qed.

Example abspath_at_root : ospath.abspath "/" "x" = "/x".
Proof. reflexivity. Qed.

Example dirname_nested : ospath.dirname "/a/b" = "/a".
Proof. reflexivity. Qed.

Example dirname_top : ospath.dirname "/a" = "/".
Proof. reflexivity. Qed.

Example dirname_bare : ospath.dirname "a" = EmptyString.
Proof. reflexivity. Qed.

Example dirname_two_slashes : ospath.dirname "//a" = "//".
Proof. reflexivity. Qed.

Example dirname_inner_slashes : ospath.dirname "/a//b" = "/a".
Proof. reflexivity. Qed.

Example slice_last_three : Str.slice_from (-3) "out.nc" = ".nc".
Proof. reflexivity. Qed.

Example slice_short : Str.slice_from (-3) "nc" = "nc".
Proof. reflexivity. Qed.

Example validate_sample :
  validate fs0 (spec0 "relative/prefix_" "out")
  = (Return tt, spec0 "/home/u/relative/prefix_" "out.nc").
Proof. vm_compute. reflexivity. Qed.

Example validate_sample_no_directory :
  validate fs0 (spec0 "/nowhere/prefix_" "out")
  = (Raise (ValueError
       "Output directory /nowhere implied in output prefix /nowhere/prefix_ is not valid"),
     spec0 "/nowhere/prefix_" "out").
Proof. vm_compute. reflexivity. Qed.

(** ** The loops *)

Section Loops.

Context (self : Slice2SeriesSpecifier).

Lemma for_each_isinstance_str (e : exn) (xs : list pyval) :
  for_each xs (λ x, when (negb (isinstance_str x)) (raise e)) self
  = if all_str xs then (Return tt, self) else (Raise e, self).
Proof.
  induction xs as [|x xs IH]; [reflexivity|].
  cbn [for_each all_str forallb]. unfold bind at 1.
  destruct x; cbn; try reflexivity. exact IH.
Qed.

Lemma all_str_inv (xs : list pyval) :
  all_str xs = true → ∃ names, xs = PStr <$> names.
Proof.
  induction xs as [|x xs IH]; cbn.
  - by exists [].
  - intros [Hx Hxs]%andb_prop. destruct (IH Hxs) as [names ->].
    destruct x; try discriminate. by exists (s :: names).
Qed.

Lemma all_str_fmap (names : list string) : all_str (PStr <$> names) = true.
Proof. induction names; cbn; auto. Qed.

Lemma for_each_isfile (fs : FileSystem) (names : list string) :
  for_each (PStr <$> names) (λ v,
    ifile_name <~ expect_str v ;
    when (negb (isfile fs ifile_name))
      (raise (ValueError
         ("Input file " +:+ ifile_name +:+ " is not a regular file")))) self
  = match first_missing fs names with
    | Some f =>
        (Raise (ValueError ("Input file " +:+ f +:+ " is not a regular file")),
         self)
    | None => (Return tt, self)
    end.
Proof.
  induction names as [|f names IH]; [reflexivity|].
  cbn [fmap list_fmap for_each first_missing List.find]. unfold bind at 1.
  cbn. unfold bind at 1. cbn.
  destruct (isfile fs f); cbn; [exact IH | reflexivity].
Qed.

End Loops.

(** ** The type phase *)

Ltac some_msg :=
  first [ exists EmptyString; reflexivity | eexists; reflexivity ].

Lemma Specifier_validate_types_spec (self : Slice2SeriesSpecifier) :
  ∃ msg, Specifier_validate_types self
  = if str_list (input_file_list self) && isinstance_str (netcdf_format self)
    then (Return tt, self) else (Raise (TypeError msg), self).
Proof.
  destruct self as [st ifl fmt pre suf md]; cbn [input_file_list netcdf_format].
  unfold Specifier_validate_types.
  destruct ifl as [| | | |names]; try (some_msg).
  unfold bind at 1. cbn [getattr attr_get input_file_list isinstance_list negb when].
  unfold bind at 1. cbn [ret].
  unfold bind at 1. cbn [expect_list ret].
  unfold bind at 1. rewrite for_each_isinstance_str. cbn [str_list].
  destruct (all_str names); cbn [andb]; [|some_msg].
  destruct fmt; some_msg.
Qed.

Lemma validate_types_spec (self : Slice2SeriesSpecifier) :
  ∃ msg, validate_types self
  = if well_typed self then (Return tt, self)
    else (Raise (TypeError msg), self).
Proof.
  unfold validate_types, well_typed. unfold bind at 1.
  destruct (Specifier_validate_types_spec self) as [msg ->].
  destruct (str_list (input_file_list self) && isinstance_str (netcdf_format self));
    cbn [andb]; [|some_msg].
  destruct self as [st ifl fmt pre suf md].
  cbn [output_file_prefix output_file_suffix time_variant_metadata].
  destruct pre; try (some_msg).
  destruct suf; try (some_msg).
  destruct md as [| | | |var_names]; try (some_msg).
  cbn [isinstance_str andb str_list].
  unfold bind at 1. cbn [getattr attr_get output_file_prefix isinstance_str negb when].
  unfold bind at 1. cbn [ret].
  unfold bind at 1. cbn [getattr attr_get output_file_suffix isinstance_str negb when].
  unfold bind at 1. cbn [ret].
  unfold bind at 1. cbn [getattr attr_get time_variant_metadata isinstance_list negb when].
  unfold bind at 1. cbn [ret].
  unfold bind at 1. cbn [expect_list ret].
  rewrite for_each_isinstance_str.
  destruct (all_str var_names); some_msg.
Qed.

(** ** The value phase *)

Lemma well_typed_view (self : Slice2SeriesSpecifier) :
  well_typed self = true →
  ∃ names fmt prefix suffix, typed_view self names fmt prefix suffix.
Proof.
  unfold well_typed. intros H.
  repeat (apply andb_prop in H as [H ?]).
  destruct self as [st ifl fmt pre suf md]; cbn in *.
  destruct ifl as [| | | |l]; try discriminate.
  destruct fmt, pre, suf; try discriminate.
  destruct (all_str_inv l) as [names ->]; [done|].
  by exists names, s, s0, s1.
Qed.

Lemma typed_view_well_typed self names fmt prefix suffix :
  typed_view self names fmt prefix suffix →
  well_typed self = str_list (time_variant_metadata self).
Proof.
  intros [H1 H2 H3 H4]. unfold well_typed. rewrite H1, H2, H3, H4.
  cbn. by rewrite all_str_fmap.
Qed.

Lemma Specifier_validate_values_spec fs self names fmt prefix suffix :
  typed_view self names fmt prefix suffix →
  Specifier_validate_values fs self
  = if Nat.eqb (length names) 0 then
      (Raise (ValueError "There must be at least one input file given."), self)
    else match first_missing fs names with
    | Some f =>
        (Raise (ValueError ("Input file " +:+ f +:+ " is not a regular file")),
         self)
    | None =>
        if negb (str_in fmt valid_formats) then
          (Raise (ValueError
             ("Output NetCDF file format " +:+ fmt +:+ " is not valid")), self)
        else (Return tt, self)
    end.
Proof.
  intros [H1 H2 H3 H4]. unfold Specifier_validate_values.
  unfold bind at 1. cbn [getattr attr_get]. rewrite H1.
  unfold bind at 1. cbn [expect_list ret].
  unfold bind at 1. rewrite length_fmap.
  destruct (Nat.eqb (length names) 0); cbn [when raise ret]; [reflexivity|].
  unfold bind at 1. rewrite for_each_isfile.
  destruct (first_missing fs names); [reflexivity|].
  unfold bind at 1. cbn [getattr attr_get]. rewrite H2.
  unfold bind at 1. cbn [expect_str ret].
  destruct (str_in fmt valid_formats); reflexivity.
Qed.

Lemma validate_values_spec fs self names fmt prefix suffix :
  typed_view self names fmt prefix suffix →
  validate_values fs self = value_phase fs self names fmt prefix suffix.
Proof.
  intros Hv. unfold validate_values, value_phase.
  unfold bind at 1. rewrite (Specifier_validate_values_spec _ _ _ _ _ _ Hv).
  destruct Hv as [H1 H2 H3 H4].
  destruct (Nat.eqb (length names) 0); [reflexivity|].
  destruct (first_missing fs names); [reflexivity|].
  destruct (str_in fmt valid_formats); [|reflexivity]. cbn [negb].
  unfold bind at 1. cbn [getattr attr_get]. rewrite H3.
  unfold bind at 1. cbn [expect_str ret].
  unfold bind at 1.
  destruct (isdir fs _); cbn [negb when raise ret]; [|reflexivity].
  unfold bind at 1. cbn [setattr].
  unfold bind at 1. cbn [getattr attr_get attr_set output_file_suffix]. rewrite H4.
  unfold bind at 1. cbn [expect_str ret].
  unfold normalized_suffix.
  destruct (String.eqb (Str.slice_from (-3) suffix) ".nc");
    cbn [negb when ret setattr]; [|reflexivity].
  f_equal. destruct self; cbn in *. by rewrite H4.
Qed.

(** [validate] on an ill-typed instance: the type phase raises and the
    value phase never starts. *)
Lemma validate_ill_typed fs self :
  well_typed self = false →
  ∃ msg, validate fs self = (Raise (TypeError msg), self).
Proof.
  intros H. unfold validate, bind.
  destruct (validate_types_spec self) as [msg ->]. rewrite H. by exists msg.
Qed.

(** [validate] on a well-typed instance is the value phase. *)
Lemma validate_well_typed fs self :
  well_typed self = true →
  validate fs self = validate_values fs self.
Proof.
  intros H. unfold validate, bind.
  destruct (validate_types_spec self) as [msg ->]. by rewrite H.
Qed.

Lemma validate_typed fs self names fmt prefix suffix :
  typed_view self names fmt prefix suffix →
  well_typed self = true →
  validate fs self = value_phase fs self names fmt prefix suffix.
Proof.
  intros Hv H. rewrite validate_well_typed by done.
  by apply validate_values_spec.
Qed.

(** ** Strings: slices and suffixes *)

Module StrFacts.

Lemma app_cons (c : ascii) (a b : string) :
  String c a +:+ b = String c (a +:+ b).
Proof. reflexivity. Qed.

Lemma app_empty_l (b : string) : EmptyString +:+ b = b.
Proof. reflexivity. Qed.

Lemma substring_all (b : string) :
  String.substring 0 (String.length b) b = b.
Proof. induction b as [|c b IH]; cbn; [done|]. by rewrite IH. Qed.

Lemma substring_none (b : string) : String.substring 0 0 b = EmptyString.
Proof. by destruct b. Qed.

Lemma substring_app_r (a b : string) :
  String.substring (String.length a) (String.length b) (a +:+ b) = b.
Proof.
  induction a as [|c a IH].
  - rewrite app_empty_l. apply substring_all.
  - rewrite app_cons. exact IH.
Qed.

Lemma substring_split (k : nat) (s : string) :
  (k ≤ String.length s)%nat →
  s = String.substring 0 k s +:+ String.substring k (String.length s - k) s.
Proof.
  revert k. induction s as [|c s IH]; intros [|k] Hk; cbn in *; try lia.
  - done.
  - by rewrite app_empty_l, substring_all.
  - rewrite app_cons. f_equal. apply IH. lia.
Qed.

Lemma length_app (a b : string) :
  String.length (a +:+ b) = (String.length a + String.length b)%nat.
Proof.
  induction a as [|c a IH]; [done|]. rewrite app_cons. cbn. by rewrite IH.
Qed.

Lemma slice_from_m3 (s : string) :
  Str.slice_from (-3) s
  = String.substring (String.length s - 3)
      (String.length s - (String.length s - 3)) s.
Proof.
  unfold Str.slice_from. change (-3 <? 0) with true. cbv iota zeta.
  f_equal; lia.
Qed.

(** [s[-3:] == '.nc'] exactly when [s] ends in [.nc]. *)
Lemma slice_from_m3_nc (s : string) :
  Str.slice_from (-3) s = ".nc" ↔ ends_in_nc s.
Proof.
  rewrite slice_from_m3. split.
  - intros H. exists (String.substring 0 (String.length s - 3) s).
    rewrite <- H. apply substring_split. lia.
  - intros [stem ->]. rewrite length_app. cbn [String.length].
    replace (String.length stem + 3 - 3)%nat with (String.length stem) by lia.
    replace (String.length stem + 3 - String.length stem)%nat
      with (String.length ".nc") by (cbn; lia).
    apply substring_app_r.
Qed.

Lemma normalized_suffix_ends (s : string) : ends_in_nc (normalized_suffix s).
Proof.
  unfold normalized_suffix.
  destruct (String.eqb_spec (Str.slice_from (-3) s) ".nc") as [H|H].
  - by apply slice_from_m3_nc.
  - by exists s.
Qed.

Lemma normalized_suffix_fixed (s : string) :
  ends_in_nc s → normalized_suffix s = s.
Proof.
  intros H%slice_from_m3_nc. unfold normalized_suffix. rewrite H.
  by rewrite String.eqb_refl.
Qed.

Lemma normalized_suffix_append (s : string) :
  ¬ ends_in_nc s → normalized_suffix s = s +:+ ".nc".
Proof.
  intros H. unfold normalized_suffix.
  destruct (String.eqb_spec (Str.slice_from (-3) s) ".nc") as [E|E]; [|done].
  by apply slice_from_m3_nc in E.
Qed.

End StrFacts.

(** ** Paths: [normpath] and [abspath] on absolute paths *)

Module PathFacts.
Import StrFacts.

Lemma prefix_cons (a d : ascii) (p s : string) :
  String.prefix (String a p) (String d s) = Ascii.eqb d a && String.prefix p s.
Proof.
  cbn. destruct (ascii_dec a d) as [->|Hne].
  - by rewrite Ascii.eqb_refl.
  - assert (Ascii.eqb d a = false) as -> by (apply Ascii.eqb_neq; congruence).
    done.
Qed.

Lemma prefix_empty_l (s : string) : String.prefix EmptyString s = true.
Proof. by destruct s. Qed.

Lemma startswith_slash (d : ascii) (s : string) :
  Str.startswith "/" (String d s) = Str.is_slash d.
Proof.
  unfold Str.startswith. rewrite prefix_cons, prefix_empty_l.
  unfold Str.is_slash, Str.slash. by rewrite andb_true_r.
Qed.

Lemma isabs_inv (p : string) :
  ospath.isabs p = true → ∃ rest, p = String Str.slash rest.
Proof.
  destruct p as [|d rest]; [discriminate|].
  unfold ospath.isabs. rewrite startswith_slash. unfold Str.is_slash.
  intros ->%Ascii.eqb_eq. by exists rest.
Qed.

(** *** [split] and [join] *)

Lemma split_slash (s : string) :
  Str.split (String Str.slash s) = EmptyString :: Str.split s.
Proof. reflexivity. Qed.

Lemma split_nonempty (s : string) : Str.split s ≠ [].
Proof.
  induction s as [|c s IH]; cbn; [done|].
  destruct (Str.is_slash c); [done|]. by destruct (Str.split s).
Qed.

Lemma split_no_slash (s : string) :
  Forall (λ c, Str.has_slash c = false) (Str.split s).
Proof.
  induction s as [|c s IH]; cbn.
  - by constructor.
  - destruct (Str.is_slash c) eqn:Hc.
    + by constructor.
    + destruct (Str.split s) as [|h t]; inversion IH; subst;
        constructor; cbn; try rewrite Hc; auto.
Qed.

Lemma split_name (a : string) :
  Str.has_slash a = false → Str.split a = [a].
Proof.
  induction a as [|c a IH]; cbn; [done|].
  intros [Hc Ha]%orb_false_elim. rewrite Hc, (IH Ha). done.
Qed.

Lemma split_name_slash (a b : string) :
  Str.has_slash a = false →
  Str.split (a +:+ String Str.slash b) = a :: Str.split b.
Proof.
  induction a as [|c a IH]; [done|].
  cbn [Str.has_slash]. intros [Hc Ha]%orb_false_elim.
  rewrite app_cons. cbn [Str.split]. rewrite Hc, (IH Ha). done.
Qed.

Lemma split_join (cs : list string) :
  cs ≠ [] → Forall (λ c, Str.has_slash c = false) cs →
  Str.split (Str.join cs) = cs.
Proof.
  induction cs as [|x [|y rest] IH]; intros Hne Hall; [done| |].
  - cbn. apply split_name. by inversion Hall.
  - inversion Hall as [|? ? Hx Hrest]; subst.
    change (Str.join (x :: y :: rest))
      with (x +:+ String Str.slash (Str.join (y :: rest))).
    rewrite split_name_slash by done. f_equal. by apply IH.
Qed.

Lemma join_plain_relative (cs : list string) :
  Forall plain cs → Str.startswith "/" (Str.join cs) = false.
Proof.
  destruct cs as [|c rest]; [done|].
  intros Hall. inversion Hall as [|? ? (Hne & _ & _ & Hs) _]; subst.
  destruct c as [|d c']; [done|]. cbn in Hs.
  apply orb_false_elim in Hs as [Hd _].
  destruct rest; cbn [Str.join]; [|rewrite app_cons];
    by rewrite startswith_slash.
Qed.

(** *** The component loop on an absolute path *)

Lemma Forall_removelast {A} (P : A → Prop) (l : list A) :
  Forall P l → Forall P (removelast l).
Proof.
  induction l as [|x [|y l] IH]; intros H; [done|done|].
  inversion H; subst. change (Forall P (x :: removelast (y :: l))).
  constructor; auto.
Qed.

Lemma last_Forall {A} (P : A → Prop) (l : list A) (x : A) :
  Forall P l → last l = Some x → P x.
Proof.
  intros H Hl. rewrite Forall_forall in H. apply H.
  apply last_Some in Hl as [l' ->]. set_solver.
Qed.

Lemma norm_step_skip (initial : nat) (acc : list string) :
  ospath.norm_step initial acc EmptyString = acc.
Proof. reflexivity. Qed.

Lemma norm_step_plain (initial : nat) (acc : list string) (c : string) :
  plain c → ospath.norm_step initial acc c = acc ++ [c].
Proof.
  intros (H1 & H2 & H3 & _). unfold ospath.norm_step.
  apply String.eqb_neq in H1, H2, H3. by rewrite H1, H2, H3.
Qed.

Lemma norm_step_keeps_plain (initial : nat) (acc : list string) (c : string) :
  initial ≠ 0%nat → Str.has_slash c = false → Forall plain acc →
  Forall plain (ospath.norm_step initial acc c).
Proof.
  intros Hi Hc Hacc. unfold ospath.norm_step.
  destruct (String.eqb_spec c EmptyString) as [|H1]; [done|].
  destruct (String.eqb_spec c ".") as [|H2]; [done|]. cbn [orb].
  destruct (String.eqb_spec c "..") as [->|H3]; cbn [negb orb].
  - assert (Nat.eqb initial 0 = false) as -> by by apply Nat.eqb_neq.
    cbn [andb orb]. case_bool_decide as Hlast.
    + by destruct (last_Forall _ _ _ Hacc Hlast) as (_ & _ & ? & _).
    + case_bool_decide; [done|]. by apply Forall_removelast.
  - apply Forall_app. split; [done|]. by repeat constructor.
Qed.

Lemma fold_norm_keeps_plain (initial : nat) (comps acc : list string) :
  initial ≠ 0%nat → Forall (λ c, Str.has_slash c = false) comps →
  Forall plain acc →
  Forall plain (fold_left (ospath.norm_step initial) comps acc).
Proof.
  intros Hi. revert acc.
  induction comps as [|c comps IH]; intros acc Hc Hacc; [done|].
  inversion Hc; subst. cbn [fold_left]. apply IH; [done|].
  by apply norm_step_keeps_plain.
Qed.

Lemma norm_comps_plain (initial : nat) (p : string) :
  initial ≠ 0%nat → Forall plain (ospath.norm_comps initial (Str.split p)).
Proof.
  intros Hi. apply fold_norm_keeps_plain; [done| |constructor].
  apply split_no_slash.
Qed.

Lemma fold_norm_plain (initial : nat) (cs acc : list string) :
  Forall plain cs → fold_left (ospath.norm_step initial) cs acc = acc ++ cs.
Proof.
  revert acc. induction cs as [|c cs IH]; intros acc H.
  - by rewrite app_nil_r.
  - inversion H; subst. cbn [fold_left].
    rewrite norm_step_plain, IH by done. by rewrite <- app_assoc.
Qed.

(** Normalised components come back unchanged from a second pass over
    the path they were joined into. *)
Lemma norm_comps_join (initial : nat) (cs : list string) :
  Forall plain cs →
  ospath.norm_comps initial (Str.split (Str.join cs)) = cs.
Proof.
  intros H. destruct cs as [|c cs]; [done|].
  rewrite split_join; [|done|].
  - unfold ospath.norm_comps. by rewrite fold_norm_plain.
  - eapply Forall_impl; [exact H|]. by intros ? (_ & _ & _ & ?).
Qed.

(** *** Leading slashes *)

Lemma initial_slashes_abs (p : string) :
  ospath.isabs p = true →
  ospath.initial_slashes p = 1%nat ∨ ospath.initial_slashes p = 2%nat.
Proof.
  unfold ospath.isabs, ospath.initial_slashes. intros ->.
  destruct (_ && _); auto.
Qed.

Lemma initial_slashes_rebuilt (k : nat) (cs : list string) :
  k = 1%nat ∨ k = 2%nat → Forall plain cs →
  ospath.initial_slashes (Str.repeat Str.slash k +:+ Str.join cs) = k.
Proof.
  intros Hk Hcs. pose proof (join_plain_relative cs Hcs) as Hj.
  unfold ospath.initial_slashes.
  destruct Hk as [-> | ->]; cbn [Str.repeat]; rewrite !app_cons, app_empty_l.
  - rewrite startswith_slash. unfold Str.startswith at 1.
    rewrite prefix_cons. fold (Str.startswith "/" (Str.join cs)).
    by rewrite Hj.
  - rewrite startswith_slash. unfold Str.startswith.
    rewrite !prefix_cons, prefix_empty_l.
    fold (Str.startswith "/" (Str.join cs)). by rewrite Hj.
Qed.

(** *** [normpath] and [abspath] *)

Lemma normpath_abs (p : string) :
  ospath.isabs p = true →
  ospath.normpath p
  = Str.repeat Str.slash (ospath.initial_slashes p)
    +:+ Str.join (ospath.norm_comps (ospath.initial_slashes p) (Str.split p)).
Proof.
  intros Habs. unfold ospath.normpath.
  destruct (isabs_inv p Habs) as [rest ->].
  change (String.eqb (String Str.slash rest) EmptyString) with false.
  cbv iota zeta.
  destruct (initial_slashes_abs _ Habs) as [-> | ->]; reflexivity.
Qed.

Lemma normpath_abs_isabs (p : string) :
  ospath.isabs p = true → ospath.isabs (ospath.normpath p) = true.
Proof.
  intros Habs. rewrite normpath_abs by done. unfold ospath.isabs.
  destruct (initial_slashes_abs _ Habs) as [-> | ->]; cbn [Str.repeat];
    by rewrite !app_cons, startswith_slash.
Qed.

(** Normalising an absolute path twice is normalising it once. *)
Lemma normpath_abs_idem (p : string) :
  ospath.isabs p = true →
  ospath.normpath (ospath.normpath p) = ospath.normpath p.
Proof.
  intros Habs.
  rewrite (normpath_abs (ospath.normpath p)) by by apply normpath_abs_isabs.
  rewrite (normpath_abs p Habs).
  set (k := ospath.initial_slashes p).
  set (cs := ospath.norm_comps k (Str.split p)).
  assert (Hk : k = 1%nat ∨ k = 2%nat) by by apply initial_slashes_abs.
  assert (Hcs : Forall plain cs).
  { apply norm_comps_plain. lia. }
  rewrite initial_slashes_rebuilt by done.
  f_equal. f_equal.
  destruct Hk as [-> | ->]; cbn [Str.repeat];
    rewrite !app_cons, app_empty_l, !split_slash;
    unfold ospath.norm_comps; cbn [fold_left];
    rewrite !norm_step_skip; by apply norm_comps_join.
Qed.

Lemma join_abs (cwd p : string) :
  ospath.isabs cwd = true → ospath.isabs (ospath.join cwd p) = true.
Proof.
  intros Hcwd. unfold ospath.join.
  destruct (Str.startswith "/" p) eqn:Hp; [done|].
  destruct (isabs_inv _ Hcwd) as [rest ->].
  unfold ospath.isabs.
  destruct (_ || _); by rewrite !app_cons, startswith_slash.
Qed.

Lemma abspath_isabs (cwd p : string) :
  ospath.isabs cwd = true → ospath.isabs (ospath.abspath cwd p) = true.
Proof.
  intros Hcwd. unfold ospath.abspath. apply normpath_abs_isabs.
  destruct (ospath.isabs p) eqn:Hp; [done|]. by apply join_abs.
Qed.

(** An absolute path produced by [abspath] is a fixed point of it. *)
Lemma abspath_idem (cwd p : string) :
  ospath.isabs cwd = true →
  ospath.abspath cwd (ospath.abspath cwd p) = ospath.abspath cwd p.
Proof.
  intros Hcwd. unfold ospath.abspath at 1.
  rewrite abspath_isabs by done. unfold ospath.abspath.
  apply normpath_abs_idem.
  destruct (ospath.isabs p) eqn:Hp; [done|]. by apply join_abs.
Qed.

End PathFacts.

(** * Construction *)

(** [__init__] assigns every attribute: the instance it leaves does not
    depend on what it started from. *)
Lemma init_assigns_all (infiles ncfmt prefix suffix metadata : pyval)
    (self self' : Slice2SeriesSpecifier) :
  (Slice2SeriesSpecifier_init infiles ncfmt prefix suffix metadata self).2
  = (Slice2SeriesSpecifier_init infiles ncfmt prefix suffix metadata self').2.
Proof. reflexivity. Qed.

(** The instance [__init__] leaves: the base class constructor runs after
    the subclass has assigned its type string, and assigns its own. *)
Lemma init_result (infiles ncfmt prefix suffix metadata : pyval)
    (self : Slice2SeriesSpecifier) :
  Slice2SeriesSpecifier_init infiles ncfmt prefix suffix metadata self
  = (Return tt,
     {| specifier_type := PStr "undetermined";
        input_file_list := infiles;
        netcdf_format := ncfmt;
        output_file_prefix := prefix;
        output_file_suffix := suffix;
        time_variant_metadata := metadata |}).
Proof. reflexivity. Qed.

Lemma new_returns (d : default_lists) (kwargs : gmap string pyval)
    (self : Slice2SeriesSpecifier) :
  new_Slice2SeriesSpecifier d kwargs = Return self →
  specifier_type self = PStr "undetermined"
  ∧ input_file_list self
    = default (PList (default_infiles d)) (kwargs !! "infiles")
  ∧ netcdf_format self = default (PStr "netcdf4c") (kwargs !! "ncfmt")
  ∧ output_file_prefix self = default (PStr "tseries.") (kwargs !! "prefix")
  ∧ output_file_suffix self = default (PStr ".nc") (kwargs !! "suffix")
  ∧ time_variant_metadata self
    = default (PList (default_metadata d)) (kwargs !! "metadata").
Proof.
  unfold new_Slice2SeriesSpecifier. case_bool_decide; [|discriminate].
  rewrite init_result. cbn [snd]. by intros [= <-].
Qed.

Lemma create_slice_to_series (d : default_lists) (kwargs : gmap string pyval) :
  create_specifier d (PStr "slice-to-series") kwargs
  = new_Slice2SeriesSpecifier d kwargs.
Proof. reflexivity. Qed.

(** C1 (defect in the code).  The claim: after
    [create_specifier("slice-to-series")], or after constructing
    [Slice2SeriesSpecifier] directly, [specifier_type] equals
    ["slice-to-series"].  The code: whatever keyword arguments are given
    and whatever the shared default lists hold, every construction that
    returns leaves [specifier_type] equal to ["undetermined"], because
    [Specifier.__init__] is called after the subclass has assigned
    ["slice-to-series"] and overwrites it. *)
Theorem C1_specifier_type_is_undetermined (d : default_lists)
    (kwargs : gmap string pyval) (self : Slice2SeriesSpecifier) :
  create_specifier d (PStr "slice-to-series") kwargs = Return self
  ∨ new_Slice2SeriesSpecifier d kwargs = Return self →
  specifier_type self = PStr "undetermined"
  ∧ specifier_type self ≠ PStr "slice-to-series".
Proof.
  rewrite create_slice_to_series. intros H.
  assert (new_Slice2SeriesSpecifier d kwargs = Return self) as Hn by tauto.
  apply new_returns in Hn as [-> _]. split; [done | discriminate].
Qed.

Lemma C1_default_construction :
  create_specifier initial_defaults (PStr "slice-to-series") ∅
  = Return default_instance
  ∧ specifier_type default_instance = PStr "undetermined"
  ∧ specifier_type default_instance ≠ PStr "slice-to-series".
Proof.
  assert (H : create_specifier initial_defaults (PStr "slice-to-series") ∅
              = Return default_instance) by (vm_compute; reflexivity).
  split; [exact H|].
  apply (C1_specifier_type_is_undetermined initial_defaults ∅ default_instance).
  left. exact H.
Defined.

(** C2 as stated fails: with a string tag, a keyword that [__init__] does
    not declare makes the forwarded constructor call raise [TypeError]. *)
Lemma C2_type_error_with_string_tag :
  ¬ (∀ (d : default_lists) (spec_type : pyval) (kwargs : gmap string pyval),
       (∃ msg, create_specifier d spec_type kwargs = Raise (TypeError msg))
       ↔ isinstance_str spec_type = false).
Proof.
  intros H.
  destruct (H initial_defaults (PStr "slice-to-series")
              {["once" := PBool true]}) as [H1 _].
  assert (isinstance_str (PStr "slice-to-series") = false); [|discriminate].
  apply H1. eexists. vm_compute. reflexivity.
Qed.

(** C2 (amended).  [create_specifier(spec_type, **kwargs)] raises
    [TypeError] if and only if [spec_type] is not a string, or it is
    ["slice-to-series"] and some keyword is not a parameter of
    [Slice2SeriesSpecifier.__init__]; for any other string it raises
    [ValueError]; for ["slice-to-series"] with known keywords it returns the
    instance built from them: every keyword given is stored as given, an
    absent [ncfmt], [prefix] or [suffix] is the string of the signature, and
    an absent [infiles] or [metadata] is the shared default list with
    whatever it holds at the time of the call. *)
Theorem C2_create_specifier_outcomes (d : default_lists)
    (spec_type : pyval) (kwargs : gmap string pyval) :
  ((∃ msg, create_specifier d spec_type kwargs = Raise (TypeError msg))
   ↔ isinstance_str spec_type = false
     ∨ (spec_type = PStr "slice-to-series" ∧ ¬ known_keywords kwargs))
  ∧ (∀ s, spec_type = PStr s → s ≠ "slice-to-series" →
       create_specifier d spec_type kwargs
       = Raise (ValueError ("Specifier of type " +:+ s +:+ " is not defined.")))
  ∧ (spec_type = PStr "slice-to-series" → known_keywords kwargs →
       ∃ self, create_specifier d spec_type kwargs = Return self
       ∧ new_Slice2SeriesSpecifier d kwargs = Return self
       ∧ input_file_list self
         = default (PList (default_infiles d)) (kwargs !! "infiles")
       ∧ netcdf_format self = default (PStr "netcdf4c") (kwargs !! "ncfmt")
       ∧ output_file_prefix self = default (PStr "tseries.") (kwargs !! "prefix")
       ∧ output_file_suffix self = default (PStr ".nc") (kwargs !! "suffix")
       ∧ time_variant_metadata self
         = default (PList (default_metadata d)) (kwargs !! "metadata")).
Proof.
  split; [|split].
  - destruct spec_type as [| | |s|]; cbn [create_specifier isinstance_str];
      try (split; [auto | intros _; eexists; reflexivity]).
    destruct (String.eqb_spec s "slice-to-series") as [->|Hs].
    + unfold new_Slice2SeriesSpecifier, known_keywords.
      case_bool_decide; split.
      * intros [? [=]].
      * intros [[=]|[_ ?]]. done.
      * auto.
      * intros _. eexists. reflexivity.
    + split; [intros [? [=]] | intros [[=]|[[= ->] _]]; done].
  - intros s -> Hs. cbn. by apply String.eqb_neq in Hs as ->.
  - intros -> Hk. rewrite create_slice_to_series.
    unfold new_Slice2SeriesSpecifier, known_keywords in *.
    rewrite bool_decide_eq_true_2 by done. rewrite init_result. cbn [snd].
    eexists. repeat split; reflexivity.
Qed.

Lemma C2_create_specifier_examples :
  (∃ msg, create_specifier initial_defaults (PInt 123) ∅
          = Raise (TypeError msg))
  ∧ create_specifier initial_defaults (PStr "unknown") ∅
    = Raise (ValueError "Specifier of type unknown is not defined.")
  ∧ ∃ self,
      create_specifier
        {| default_infiles := [PStr "/data/a.nc"]; default_metadata := [] |}
        (PStr "slice-to-series") {["prefix" := PStr "/out/ts."]}
      = Return self
      ∧ output_file_prefix self = PStr "/out/ts."
      ∧ output_file_suffix self = PStr ".nc"
      ∧ input_file_list self = PList [PStr "/data/a.nc"].
Proof.
  split; [|split].
  - apply (C2_create_specifier_outcomes initial_defaults (PInt 123) ∅).
    by left.
  - destruct (C2_create_specifier_outcomes initial_defaults
                (PStr "unknown") ∅) as (_ & H & _).
    apply (H "unknown"); [reflexivity | discriminate].
  - destruct (C2_create_specifier_outcomes
                {| default_infiles := [PStr "/data/a.nc"];
                   default_metadata := [] |}
                (PStr "slice-to-series")
                {["prefix" := PStr "/out/ts."]}) as (_ & _ & H).
    destruct H as (self & H1 & _ & H0 & _ & H2 & H3 & _).
    + reflexivity.
    + apply (bool_decide_unpack _). vm_compute. exact I.
    + exists self. auto.
Defined.

(** * Validation *)

(** ** The conditions the checks test *)

Section Conditions.

Context (fs : FileSystem).

Lemma all_str_false (l : list pyval) :
  all_str l = false ↔ ∃ x, x ∈ l ∧ isinstance_str x = false.
Proof.
  induction l as [|y l IH]; cbn.
  - split; [done | intros (x & Hx & _); by apply elem_of_nil in Hx].
  - rewrite andb_false_iff, IH. split.
    + intros [Hy | (x & Hx & Hs)].
      * exists y. split; [left | done].
      * exists x. split; [by right | done].
    + intros (x & Hx & Hs). apply elem_of_cons in Hx as [-> | Hx]; eauto.
Qed.

Lemma str_list_false (v : pyval) :
  str_list v = false ↔
  isinstance_list v = false
  ∨ ∃ l x, v = PList l ∧ x ∈ l ∧ isinstance_str x = false.
Proof.
  destruct v as [| | | |l]; cbn; try (split; [auto | done]).
  rewrite all_str_false. split.
  - intros (x & Hx & Hs). right. by exists l, x.
  - intros [[=] | (l' & x & [= <-] & Hx & Hs)]. by exists x.
Qed.

Lemma well_typed_false (self : Slice2SeriesSpecifier) :
  well_typed self = false ↔ ill_typed self.
Proof.
  unfold well_typed, ill_typed.
  rewrite !andb_false_iff, !str_list_false. tauto.
Qed.

Lemma well_typed_true (self : Slice2SeriesSpecifier) :
  well_typed self = true ↔ ¬ ill_typed self.
Proof.
  rewrite <- well_typed_false. by destruct (well_typed self).
Qed.

Lemma str_in_elem (x : string) (l : list string) :
  str_in x l = true ↔ x ∈ l.
Proof.
  unfold str_in. rewrite existsb_exists. split.
  - intros (y & Hy & ->%String.eqb_eq). by apply list_elem_of_In.
  - intros H. exists x. split; [by apply list_elem_of_In|].
    apply String.eqb_refl.
Qed.

Lemma first_missing_None (names : list string) :
  first_missing fs names = None ↔ Forall (λ f, isfile fs f = true) names.
Proof.
  unfold first_missing. induction names as [|f names IH]; cbn.
  - split; [constructor | done].
  - destruct (isfile fs f) eqn:Hf; cbn.
    + rewrite IH. split; [by constructor | by inversion 1].
    + split; [done | inversion 1; congruence].
Qed.

(** The first missing file: everything listed before it is a regular
    file. *)
Lemma first_missing_Some (names : list string) (f : string) :
  first_missing fs names = Some f ↔
  ∃ before after, names = before ++ f :: after
    ∧ Forall (λ g, isfile fs g = true) before ∧ isfile fs f = false.
Proof.
  unfold first_missing. revert f.
  induction names as [|g names IH]; intros f; cbn.
  - split; [done | intros ([|??] & ? & [=] & _)].
  - destruct (isfile fs g) eqn:Hg; cbn.
    + rewrite IH. split.
      * intros (before & after & -> & Hb & Hf).
        exists (g :: before), after. repeat split; [by constructor | done].
      * intros ([|g' before] & after & Heq & Hb & Hf);
          cbn in Heq; injection Heq as -> ->; [congruence|].
        exists before, after. by inversion Hb.
    + split.
      * intros [= ->]. exists [], names. repeat split; [constructor | done].
      * intros ([|g' before] & after & Heq & Hb & Hf);
          cbn in Heq; injection Heq as -> ->; [done|].
        inversion Hb; congruence.
Qed.

Lemma bad_values_dec (names : list string) (fmt prefix : string) :
  bad_values fs names fmt prefix ∨ ¬ bad_values fs names fmt prefix.
Proof.
  unfold bad_values.
  destruct (decide (names = [])) as [Hn|Hn]; [by auto|].
  destruct (first_missing fs names) as [f|] eqn:Hm.
  { apply first_missing_Some in Hm as (b & a & Heq & _ & Hf).
    left. right. left. exists f. split; [|done]. rewrite Heq. set_solver. }
  apply first_missing_None in Hm. rewrite Forall_forall in Hm.
  destruct (decide (fmt ∈ valid_formats)) as [Hfmt|Hfmt]; [|by auto].
  destruct (isdir fs (output_dir fs prefix)) eqn:Hd; [|by auto].
  right. intros [?|[(f & Hf & Hx)|[?|?]]]; try done.
  rewrite Hm in Hx; done.
Qed.

End Conditions.

(** ** The outcome of [validate] *)

Section Outcome.

Context (fs : FileSystem) (self : Slice2SeriesSpecifier).
Context (names : list string) (fmt prefix suffix : string).

Lemma value_phase_empty :
  names = [] →
  value_phase fs self names fmt prefix suffix
  = (Raise (ValueError "There must be at least one input file given."), self).
Proof. by intros ->. Qed.

Lemma value_phase_missing (before after : list string) (f : string) :
  names = before ++ f :: after →
  Forall (λ g, isfile fs g = true) before → isfile fs f = false →
  value_phase fs self names fmt prefix suffix
  = (Raise (ValueError ("Input file " +:+ f +:+ " is not a regular file")),
     self).
Proof.
  intros Hn Hb Hf. unfold value_phase.
  assert (first_missing fs names = Some f) as ->.
  { apply first_missing_Some. by exists before, after. }
  rewrite Hn. by destruct before.
Qed.

Lemma value_phase_format :
  names ≠ [] → Forall (λ g, isfile fs g = true) names →
  fmt ∉ valid_formats →
  value_phase fs self names fmt prefix suffix
  = (Raise (ValueError
       ("Output NetCDF file format " +:+ fmt +:+ " is not valid")), self).
Proof.
  intros Hn Hall Hfmt. unfold value_phase.
  apply first_missing_None in Hall as ->.
  destruct names; [done|]. cbn [length Nat.eqb].
  destruct (str_in fmt valid_formats) eqn:E; [|done].
  by apply str_in_elem in E.
Qed.

Lemma value_phase_directory :
  names ≠ [] → Forall (λ g, isfile fs g = true) names →
  fmt ∈ valid_formats → isdir fs (output_dir fs prefix) = false →
  value_phase fs self names fmt prefix suffix
  = (Raise (ValueError
       ("Output directory " +:+ output_dir fs prefix +:+
        " implied in output prefix " +:+ prefix +:+ " is not valid")),
     self).
Proof.
  intros Hn Hall Hfmt Hd. unfold value_phase.
  apply first_missing_None in Hall as ->.
  destruct names; [done|]. cbn [length Nat.eqb].
  apply str_in_elem in Hfmt as ->. cbn [negb].
  fold (output_dir fs prefix). by rewrite Hd.
Qed.

Lemma value_phase_pass :
  ¬ bad_values fs names fmt prefix →
  value_phase fs self names fmt prefix suffix
  = (Return tt, normalized fs self prefix suffix).
Proof.
  intros Hok. unfold value_phase.
  destruct names as [|n names'] eqn:En; [by destruct Hok; left|].
  rewrite <- En in *. assert (Nat.eqb (length names) 0 = false) as ->.
  { by rewrite En. }
  destruct (first_missing fs names) as [f|] eqn:Hm.
  { apply first_missing_Some in Hm as (b & a & Heq & _ & Hf).
    destruct Hok. right. left. exists f. split; [|done].
    rewrite Heq. set_solver. }
  destruct (str_in fmt valid_formats) eqn:E.
  2:{ destruct Hok. right. right. left. intros H%str_in_elem. congruence. }
  cbn [negb]. fold (output_dir fs prefix).
  destruct (isdir fs (output_dir fs prefix)) eqn:Hd; [done|].
  destruct Hok. by repeat right.
Qed.

Lemma value_phase_fail :
  bad_values fs names fmt prefix →
  ∃ msg, value_phase fs self names fmt prefix suffix
         = (Raise (ValueError msg), self).
Proof.
  intros Hbad.
  destruct (decide (names = [])) as [Hn|Hn].
  { eexists. by apply value_phase_empty. }
  destruct (first_missing fs names) as [f|] eqn:Hm.
  { apply first_missing_Some in Hm as (b & a & Heq & Hb & Hf).
    eexists. by eapply value_phase_missing. }
  apply first_missing_None in Hm.
  destruct (decide (fmt ∈ valid_formats)) as [Hfmt|Hfmt].
  2:{ eexists. by apply value_phase_format. }
  destruct (isdir fs (output_dir fs prefix)) eqn:Hd.
  2:{ eexists. by apply value_phase_directory. }
  exfalso. rewrite Forall_forall in Hm.
  destruct Hbad as [?|[(f & Hf & Hx)|[?|?]]]; [done| |done|congruence].
  rewrite Hm in Hx; done.
Qed.

End Outcome.

Lemma validate_outcome_holds (fs : FileSystem) (self : Slice2SeriesSpecifier) :
  validate_outcome fs self (validate fs self).
Proof.
  destruct (well_typed self) eqn:Hwt.
  - destruct (well_typed_view self Hwt) as (names & fmt & prefix & suffix & Hv).
    rewrite (validate_typed _ _ _ _ _ _ Hv Hwt).
    apply well_typed_true in Hwt.
    destruct (bad_values_dec fs names fmt prefix) as [Hbad|Hok].
    + destruct (value_phase_fail fs self names fmt prefix suffix Hbad)
        as [msg ->].
      by eapply vo_value_error.
    + rewrite value_phase_pass by done. by eapply vo_pass.
  - destruct (validate_ill_typed fs self Hwt) as [msg ->].
    apply vo_type_error. by apply well_typed_false.
Qed.

Lemma fmap_PStr_inj (names names' : list string) :
  PStr <$> names = PStr <$> names' → names = names'.
Proof.
  revert names'. induction names as [|n names IH]; intros [|n' names'] H;
    cbn in H; try done.
  injection H as -> H. f_equal. by apply IH.
Qed.

Lemma typed_view_unique self names fmt prefix suffix names' fmt' prefix' suffix' :
  typed_view self names fmt prefix suffix →
  typed_view self names' fmt' prefix' suffix' →
  names = names' ∧ fmt = fmt' ∧ prefix = prefix' ∧ suffix = suffix'.
Proof.
  intros [H1 H2 H3 H4] [H1' H2' H3' H4'].
  repeat split; [|congruence..].
  apply fmap_PStr_inj. congruence.
Qed.

Lemma fully_typed_well_typed (self : Slice2SeriesSpecifier) :
  fully_typed self ↔ well_typed self = true.
Proof.
  split.
  - intros (names & fmt & prefix & suffix & metadata & H1 & H2 & H3 & H4 & H5).
    unfold well_typed. rewrite H1, H2, H3, H4, H5. cbn.
    by rewrite !all_str_fmap.
  - intros H. destruct (well_typed_view self H)
      as (names & fmt & prefix & suffix & [H1 H2 H3 H4]).
    unfold well_typed in H. apply andb_prop in H as [_ H].
    destruct (time_variant_metadata self) as [| | | |l] eqn:E; try discriminate.
    destruct (all_str_inv l H) as [metadata ->].
    by exists names, fmt, prefix, suffix, metadata.
Qed.

Lemma fully_typed_not_ill (self : Slice2SeriesSpecifier) :
  fully_typed self ↔ ¬ ill_typed self.
Proof. by rewrite fully_typed_well_typed, well_typed_true. Qed.

(** The value phase, entered on a well-typed instance, finds every
    attribute at the type it operates on: it raises no [TypeError]. *)
Lemma validate_values_typed (fs : FileSystem) (self : Slice2SeriesSpecifier) :
  well_typed self = true → ¬ raises_TypeError (validate_values fs self).
Proof.
  intros Hwt [msg Hr].
  destruct (well_typed_view self Hwt) as (names & fmt & prefix & suffix & Hv).
  rewrite (validate_values_spec _ _ _ _ _ _ Hv) in Hr.
  destruct (bad_values_dec fs names fmt prefix) as [Hbad|Hok].
  - destruct (value_phase_fail fs self names fmt prefix suffix Hbad)
      as [m Hm]. rewrite Hm in Hr. discriminate.
  - rewrite value_phase_pass in Hr by done. discriminate.
Qed.

(** C3.  An instance whose file list is a non-empty list of names of
    existing regular files, whose format is one of the three tags, whose
    prefix is a string with an existing parent directory of its absolute
    form, whose suffix is any string and whose metadata is any list of
    strings passes [validate()]: it returns and does not raise. *)
Theorem C3_valid_instance_passes (fs : FileSystem) (self : Slice2SeriesSpecifier)
    (names metadata : list string) (fmt prefix suffix : string) :
  input_file_list self = PList (PStr <$> names) →
  names ≠ [] →
  Forall (λ f, isfile fs f = true) names →
  netcdf_format self = PStr fmt →
  fmt ∈ ["netcdf"; "netcdf4"; "netcdf4c"] →
  output_file_prefix self = PStr prefix →
  isdir fs (ospath.dirname (ospath.abspath (getcwd fs) prefix)) = true →
  output_file_suffix self = PStr suffix →
  time_variant_metadata self = PList (PStr <$> metadata) →
  ∃ self', validate fs self = (Return tt, self').
Proof.
  intros H1 Hne Hfiles H2 Hfmt H3 Hdir H4 H5.
  assert (Hwt : well_typed self = true).
  { apply fully_typed_well_typed.
    by exists names, fmt, prefix, suffix, metadata. }
  rewrite (validate_typed fs self names fmt prefix suffix); [|done..].
  rewrite value_phase_pass; [by eexists|].
  rewrite Forall_forall in Hfiles.
  intros [?|[(f & Hf & Hx)|[?|?]]]; [done| |done|].
  - rewrite Hfiles in Hx; done.
  - unfold output_dir in *. congruence.
Qed.

Lemma C3_valid_instance_passes_witness :
  ∃ self', validate fs0 (spec0 "relative/prefix_" "out") = (Return tt, self').
Proof.
  apply (C3_valid_instance_passes fs0 (spec0 "relative/prefix_" "out")
           ["/data/a.nc"; "/data/b.nc"] ["time"; "lat"]
           "netcdf4" "relative/prefix_" "out").
  - reflexivity.
  - discriminate.
  - repeat constructor.
  - reflexivity.
  - apply (bool_decide_unpack _). vm_compute. exact I.
  - reflexivity.
  - vm_compute. reflexivity.
  - reflexivity.
  - reflexivity.
Defined.

(** C4.  [validate()] raises [TypeError] if and only if the file list is
    not a list, or one of its elements is not a string, or the format is
    not a string, or the prefix or the suffix is not a string, or the
    metadata is not a list, or one of its elements is not a string.  Such an
    error comes from the type phase, whatever the filesystem holds, before
    any value check; so when [validate()] raises [ValueError], every
    attribute has the expected type. *)
Theorem C4_type_errors (fs : FileSystem) (self : Slice2SeriesSpecifier) :
  (raises_TypeError (validate fs self) ↔
     isinstance_list (input_file_list self) = false
     ∨ (∃ l x, input_file_list self = PList l ∧ x ∈ l
               ∧ isinstance_str x = false)
     ∨ isinstance_str (netcdf_format self) = false
     ∨ isinstance_str (output_file_prefix self) = false
     ∨ isinstance_str (output_file_suffix self) = false
     ∨ isinstance_list (time_variant_metadata self) = false
     ∨ (∃ l x, time_variant_metadata self = PList l ∧ x ∈ l
               ∧ isinstance_str x = false))
  ∧ (raises_TypeError (validate fs self) →
       ∃ msg, validate_types self = (Raise (TypeError msg), self)
              ∧ ∀ fs', validate fs' self = (Raise (TypeError msg), self))
  ∧ (raises_ValueError (validate fs self) → fully_typed self).
Proof.
  fold (ill_typed self).
  assert (Hiff : raises_TypeError (validate fs self) ↔ ill_typed self).
  { pose proof (validate_outcome_holds fs self) as H. split.
    - intros [msg Hr]. inversion H as [m Hill Heq | ? ? ? ? m ? ? ? Heq | ? ? ? ? ? ? ? Heq];
        [done | rewrite <- Heq in Hr; discriminate ..].
    - intros Hill. inversion H as [m ? Heq | | ]; [by exists m | done ..]. }
  split; [exact Hiff | split].
  - intros Hill%Hiff%well_typed_false.
    destruct (validate_types_spec self) as [msg Ht]. rewrite Hill in Ht.
    exists msg. split; [done|]. intros fs'. unfold validate, bind.
    by rewrite Ht.
  - intros [msg Hr]. apply fully_typed_not_ill.
    pose proof (validate_outcome_holds fs self) as H.
    inversion H as [m Hill Heq | | ? ? ? ? ? ? ? Heq]; [|done|];
      rewrite <- Heq in Hr; discriminate.
Qed.

Lemma C4_type_errors_witness :
  (∃ msg, validate_types (attr_set a_output_file_suffix (PInt 3)
                            (spec0 "relative/prefix_" "out"))
          = (Raise (TypeError msg),
             attr_set a_output_file_suffix (PInt 3)
               (spec0 "relative/prefix_" "out")))
  ∧ fully_typed (spec0 "/nowhere/prefix_" "out").
Proof.
  split.
  - destruct (C4_type_errors fs0 (attr_set a_output_file_suffix (PInt 3)
                (spec0 "relative/prefix_" "out"))) as (_ & H & _).
    destruct H as (msg & H & _).
    + eexists. vm_compute. reflexivity.
    + by exists msg.
  - apply (C4_type_errors fs0 (spec0 "/nowhere/prefix_" "out")).
    eexists. vm_compute. reflexivity.
Defined.

(** C5.  On a well-typed instance [validate()] raises [ValueError] if and
    only if the file list is empty, or a listed path is not an existing
    regular file, or the format is none of the three tags, or the parent
    directory of the absolute prefix does not exist.  The checks run in
    this order and the first violation decides the error: the error for a
    missing file names the first listed path that is not a regular file. *)
Theorem C5_value_errors (fs : FileSystem) (self : Slice2SeriesSpecifier)
    (names : list string) (fmt prefix suffix : string) :
  fully_typed self →
  input_file_list self = PList (PStr <$> names) →
  netcdf_format self = PStr fmt →
  output_file_prefix self = PStr prefix →
  output_file_suffix self = PStr suffix →
  (raises_ValueError (validate fs self) ↔
     names = []
     ∨ (∃ f, f ∈ names ∧ isfile fs f = false)
     ∨ fmt ∉ ["netcdf"; "netcdf4"; "netcdf4c"]
     ∨ isdir fs (ospath.dirname (ospath.abspath (getcwd fs) prefix)) = false)
  ∧ (names = [] →
       validate fs self
       = (Raise (ValueError "There must be at least one input file given."),
          self))
  ∧ (∀ before f after,
       names = before ++ f :: after →
       Forall (λ g, isfile fs g = true) before → isfile fs f = false →
       ∃ msg, validate fs self = (Raise (ValueError msg), self)
              ∧ msg = "Input file " +:+ f +:+ " is not a regular file"
              ∧ contains msg f)
  ∧ (names ≠ [] → Forall (λ g, isfile fs g = true) names →
     fmt ∉ ["netcdf"; "netcdf4"; "netcdf4c"] →
       validate fs self
       = (Raise (ValueError
            ("Output NetCDF file format " +:+ fmt +:+ " is not valid")), self))
  ∧ (names ≠ [] → Forall (λ g, isfile fs g = true) names →
     fmt ∈ ["netcdf"; "netcdf4"; "netcdf4c"] →
     isdir fs (ospath.dirname (ospath.abspath (getcwd fs) prefix)) = false →
       validate fs self
       = (Raise (ValueError
            ("Output directory "
             +:+ ospath.dirname (ospath.abspath (getcwd fs) prefix)
             +:+ " implied in output prefix " +:+ prefix +:+ " is not valid")),
          self)).
Proof.
  intros Hwt%fully_typed_well_typed H1 H2 H3 H4.
  assert (Hv : typed_view self names fmt prefix suffix) by done.
  rewrite (validate_typed fs self names fmt prefix suffix) by done.
  split; [|split; [|split; [|split]]].
  - fold valid_formats. fold (output_dir fs prefix).
    fold (bad_values fs names fmt prefix). split.
    + intros [msg Hr].
      destruct (bad_values_dec fs names fmt prefix) as [|Hok]; [done|].
      rewrite value_phase_pass in Hr by done. discriminate.
    + intros Hbad.
      destruct (value_phase_fail fs self names fmt prefix suffix Hbad)
        as [msg ->]. by exists msg.
  - apply value_phase_empty.
  - intros before f after Hn Hb Hf. eexists. split; [|split; [reflexivity|]].
    + by eapply value_phase_missing.
    + by exists "Input file ", " is not a regular file".
  - apply value_phase_format.
  - apply value_phase_directory.
Qed.

Lemma C5_value_errors_witness :
  validate fs0 (attr_set a_input_file_list
                  (PList (PStr <$> ["/data/a.nc"; "/data/gone.nc"; "/data/lost.nc"]))
                  (spec0 "/nowhere/prefix_" "out"))
  = (Raise (ValueError "Input file /data/gone.nc is not a regular file"),
     attr_set a_input_file_list
       (PList (PStr <$> ["/data/a.nc"; "/data/gone.nc"; "/data/lost.nc"]))
       (spec0 "/nowhere/prefix_" "out")).
Proof.
  destruct (C5_value_errors fs0
    (attr_set a_input_file_list
       (PList (PStr <$> ["/data/a.nc"; "/data/gone.nc"; "/data/lost.nc"]))
       (spec0 "/nowhere/prefix_" "out"))
    ["/data/a.nc"; "/data/gone.nc"; "/data/lost.nc"]
    "netcdf4" "/nowhere/prefix_" "out") as (_ & _ & H & _).
  - by exists ["/data/a.nc"; "/data/gone.nc"; "/data/lost.nc"],
      "netcdf4", "/nowhere/prefix_", "out", ["time"; "lat"].
  - reflexivity.
  - reflexivity.
  - reflexivity.
  - reflexivity.
  - destruct (H ["/data/a.nc"] "/data/gone.nc" ["/data/lost.nc"])
      as (msg & Hr & -> & _).
    + reflexivity.
    + repeat constructor.
    + vm_compute. reflexivity.
    + exact Hr.
Defined.

(** ** Normalisation *)

Lemma validate_pass_inv (fs : FileSystem) (self self' : Slice2SeriesSpecifier)
    (a : unit) :
  validate fs self = (Return a, self') →
  ∃ names fmt prefix suffix,
    fully_typed self
    ∧ typed_view self names fmt prefix suffix
    ∧ ¬ bad_values fs names fmt prefix
    ∧ self' = normalized fs self prefix suffix.
Proof.
  intros Heq. pose proof (validate_outcome_holds fs self) as H.
  rewrite Heq in H.
  inversion H as [ | | names fmt prefix suffix Hwt Hv Hok].
  exists names, fmt, prefix, suffix. by rewrite fully_typed_not_ill.
Qed.

Lemma validate_raise_inv (fs : FileSystem) (self : Slice2SeriesSpecifier)
    (e : exn) :
  (validate fs self).1 = Raise e → (validate fs self).2 = self.
Proof.
  intros Heq. pose proof (validate_outcome_holds fs self) as H.
  destruct (validate fs self) as [r self']. cbn in *. subst r.
  by inversion H.
Qed.

(** C6.  After a successful [validate()] a string suffix ends in [.nc]:
    it is unchanged if it already did, and has [.nc] appended otherwise.
    The fix-up is a mutation and never a failure: whether [validate()]
    returns does not depend on which string the suffix is. *)
Theorem C6_suffix_ends_in_nc (fs : FileSystem)
    (self self' : Slice2SeriesSpecifier) (suffix : string) :
  output_file_suffix self = PStr suffix →
  validate fs self = (Return tt, self') →
  (∃ suffix', output_file_suffix self' = PStr suffix'
     ∧ ends_in_nc suffix'
     ∧ (ends_in_nc suffix → suffix' = suffix)
     ∧ (¬ ends_in_nc suffix → suffix' = suffix +:+ ".nc"))
  ∧ ∀ other, completes (validate fs (attr_set a_output_file_suffix (PStr other) self)).
Proof.
  intros Hs Heq.
  destruct (validate_pass_inv _ _ _ _ Heq)
    as (names & fmt & prefix & sfx & Hft & Hv & Hok & ->).
  assert (sfx = suffix) as -> by (destruct Hv; congruence).
  split.
  - exists (normalized_suffix suffix). split; [done|].
    split; [apply StrFacts.normalized_suffix_ends|].
    split; [apply StrFacts.normalized_suffix_fixed
           | apply StrFacts.normalized_suffix_append].
  - intros other. exists tt.
    set (self2 := attr_set a_output_file_suffix (PStr other) self).
    assert (Hv2 : typed_view self2 names fmt prefix other).
    { destruct Hv. by split. }
    rewrite (validate_typed fs self2 names fmt prefix other Hv2).
    + by rewrite value_phase_pass.
    + rewrite (typed_view_well_typed _ _ _ _ _ Hv2).
      apply fully_typed_well_typed in Hft.
      by rewrite (typed_view_well_typed _ _ _ _ _ Hv) in Hft.
Qed.

Lemma not_ends_in_nc_out : ¬ ends_in_nc "out".
Proof. intros H%StrFacts.slice_from_m3_nc. discriminate H. Qed.

Lemma C6_suffix_out_witness :
  (validate fs0 (spec0 "relative/prefix_" "out")).1 = Return tt
  ∧ output_file_suffix (validate fs0 (spec0 "relative/prefix_" "out")).2
    = PStr "out.nc"
  ∧ output_file_suffix (validate fs0 (spec0 "relative/prefix_" "out.nc")).2
    = PStr "out.nc".
Proof.
  split; [vm_compute; reflexivity | split].
  - destruct (C6_suffix_ends_in_nc fs0 (spec0 "relative/prefix_" "out")
                (validate fs0 (spec0 "relative/prefix_" "out")).2 "out")
      as [(suffix' & -> & _ & _ & Happ) _].
    + reflexivity.
    + vm_compute. reflexivity.
    + by rewrite (Happ not_ends_in_nc_out).
  - destruct (C6_suffix_ends_in_nc fs0 (spec0 "relative/prefix_" "out.nc")
                (validate fs0 (spec0 "relative/prefix_" "out.nc")).2 "out.nc")
      as [(suffix' & -> & _ & Hfix & _) _].
    + reflexivity.
    + vm_compute. reflexivity.
    + rewrite Hfix; [done|]. by exists "out".
Defined.

(** C7 as stated fails: a string prefix with a missing parent directory
    does not make [validate()] raise [ValueError] when another attribute is
    ill-typed; the type phase raises [TypeError] first. *)
Lemma C7_type_phase_comes_first :
  ¬ (∀ (fs : FileSystem) (self : Slice2SeriesSpecifier) (prefix : string),
       output_file_prefix self = PStr prefix →
       isdir fs (ospath.dirname (ospath.abspath (getcwd fs) prefix)) = false →
       raises_ValueError (validate fs self)).
Proof.
  intros H.
  destruct (H fs0 (attr_set a_input_file_list PNone
                     (spec0 "/nowhere/prefix_" "out")) "/nowhere/prefix_")
    as [msg Hr].
  - reflexivity.
  - vm_compute. reflexivity.
  - vm_compute in Hr. discriminate Hr.
Qed.

(** C7 (amended).  For a string prefix, a successful [validate()] leaves
    the attribute holding the absolute form of the original prefix,
    resolved against the working directory; and on an instance whose
    attributes are all well-typed, [validate()] raises [ValueError] when the
    parent directory of that absolute path does not exist. *)
Theorem C7_prefix_made_absolute (fs : FileSystem)
    (self : Slice2SeriesSpecifier) (prefix : string) :
  output_file_prefix self = PStr prefix →
  (∀ self', validate fs self = (Return tt, self') →
     output_file_prefix self' = PStr (ospath.abspath (getcwd fs) prefix)
     ∧ ospath.isabs (ospath.abspath (getcwd fs) prefix) = true
     ∧ isdir fs (ospath.dirname (ospath.abspath (getcwd fs) prefix)) = true)
  ∧ (fully_typed self →
     isdir fs (ospath.dirname (ospath.abspath (getcwd fs) prefix)) = false →
     raises_ValueError (validate fs self)).
Proof.
  intros Hp. split.
  - intros self' Heq.
    destruct (validate_pass_inv _ _ _ _ Heq)
      as (names & fmt & p & sfx & Hft & Hv & Hok & ->).
    assert (p = prefix) as -> by (destruct Hv; congruence).
    split; [done|]. split; [apply PathFacts.abspath_isabs, getcwd_abs|].
    destruct (isdir fs _) eqn:Hd; [done|]. destruct Hok. by repeat right.
  - intros Hft Hd.
    pose proof Hft as Hwt%fully_typed_well_typed.
    destruct (well_typed_view self Hwt) as (names & fmt & p & sfx & Hv).
    assert (p = prefix) as -> by (destruct Hv; congruence).
    rewrite (validate_typed fs self names fmt prefix sfx) by done.
    destruct (value_phase_fail fs self names fmt prefix sfx) as [msg ->].
    + by repeat right.
    + by exists msg.
Qed.

Lemma C7_prefix_made_absolute_witness :
  output_file_prefix (validate fs0 (spec0 "relative/prefix_" "out")).2
  = PStr "/home/u/relative/prefix_"
  ∧ raises_ValueError (validate fs0 (spec0 "/nowhere/prefix_" "out")).
Proof.
  split.
  - destruct (C7_prefix_made_absolute fs0 (spec0 "relative/prefix_" "out")
                "relative/prefix_") as [H _]; [reflexivity|].
    destruct (H (validate fs0 (spec0 "relative/prefix_" "out")).2) as [-> _].
    + vm_compute. reflexivity.
    + vm_compute. reflexivity.
  - destruct (C7_prefix_made_absolute fs0 (spec0 "/nowhere/prefix_" "out")
                "/nowhere/prefix_") as [_ H]; [reflexivity|].
    apply H.
    + by exists ["/data/a.nc"; "/data/b.nc"], "netcdf4", "/nowhere/prefix_",
        "out", ["time"; "lat"].
    + vm_compute. reflexivity.
Defined.

(** A normalised instance is its own normal form. *)
Lemma normalized_idem (fs : FileSystem) (self : Slice2SeriesSpecifier)
    (prefix suffix : string) :
  normalized fs (normalized fs self prefix suffix)
    (ospath.abspath (getcwd fs) prefix) (normalized_suffix suffix)
  = normalized fs self prefix suffix.
Proof.
  unfold normalized.
  rewrite PathFacts.abspath_idem by apply getcwd_abs.
  rewrite (StrFacts.normalized_suffix_fixed (normalized_suffix suffix))
    by apply StrFacts.normalized_suffix_ends.
  by destruct self.
Qed.

(** C8.  [validate()] is idempotent: on an instance on which it has
    completed, with the same filesystem and working directory, a second
    call completes as well and changes no attribute.  The prefix it left is
    a fixed point of [abspath] and the suffix it left ends in [.nc]. *)
Theorem C8_validate_idempotent (fs : FileSystem)
    (self self' : Slice2SeriesSpecifier) :
  validate fs self = (Return tt, self') →
  validate fs self' = (Return tt, self')
  ∧ ∃ prefix' suffix',
      output_file_prefix self' = PStr prefix'
      ∧ ospath.abspath (getcwd fs) prefix' = prefix'
      ∧ output_file_suffix self' = PStr suffix'
      ∧ normalized_suffix suffix' = suffix'.
Proof.
  intros Heq.
  destruct (validate_pass_inv _ _ _ _ Heq)
    as (names & fmt & prefix & suffix & Hft & Hv & Hok & ->).
  set (abs_prefix := ospath.abspath (getcwd fs) prefix).
  assert (Hv' : typed_view (normalized fs self prefix suffix) names fmt
                  abs_prefix (normalized_suffix suffix)).
  { destruct Hv. by split. }
  split.
  - rewrite (validate_typed _ _ _ _ _ _ Hv').
    + rewrite value_phase_pass; [by rewrite normalized_idem|].
      unfold bad_values, output_dir, abs_prefix in *.
      by rewrite PathFacts.abspath_idem by apply getcwd_abs.
    + rewrite (typed_view_well_typed _ _ _ _ _ Hv').
      apply fully_typed_well_typed in Hft.
      by rewrite (typed_view_well_typed _ _ _ _ _ Hv) in Hft.
  - exists abs_prefix, (normalized_suffix suffix).
    split; [done|]. split; [apply PathFacts.abspath_idem, getcwd_abs|].
    split; [done|].
    apply StrFacts.normalized_suffix_fixed, StrFacts.normalized_suffix_ends.
Qed.

Lemma C8_validate_idempotent_witness :
  validate fs0 (validate fs0 (spec0 "relative/prefix_" "out")).2
  = (Return tt, (validate fs0 (spec0 "relative/prefix_" "out")).2).
Proof.
  apply (C8_validate_idempotent fs0 (spec0 "relative/prefix_" "out")).
  vm_compute. reflexivity.
Defined.

(** C9.  Whether it raises or completes, [validate()] leaves
    [input_file_list], [netcdf_format], [specifier_type] and
    [time_variant_metadata] as they were: the instance it leaves differs
    from the one it was given in [output_file_prefix] and
    [output_file_suffix] at most. *)
Theorem C9_validate_frame (fs : FileSystem) (self : Slice2SeriesSpecifier) :
  input_file_list (validate fs self).2 = input_file_list self
  ∧ netcdf_format (validate fs self).2 = netcdf_format self
  ∧ specifier_type (validate fs self).2 = specifier_type self
  ∧ time_variant_metadata (validate fs self).2 = time_variant_metadata self
  ∧ ∃ prefix suffix,
      (validate fs self).2
      = attr_set a_output_file_suffix suffix
          (attr_set a_output_file_prefix prefix self).
Proof.
  pose proof (validate_outcome_holds fs self) as H.
  destruct (validate fs self) as [r self'].
  assert (∀ s : Slice2SeriesSpecifier,
    s = attr_set a_output_file_suffix (output_file_suffix s)
          (attr_set a_output_file_prefix (output_file_prefix s) s)) as Hid.
  { by intros []. }
  inversion H; subst; cbn [snd]; repeat split; eauto.
Qed.

(** C10.  [validate()] is atomic on failure: when it raises, be it
    [TypeError] or [ValueError], every attribute holds the value it held
    before the call.  The prefix is rewritten only after the directory check
    has passed, and nothing after that point raises. *)
Theorem C10_failure_leaves_instance (fs : FileSystem)
    (self : Slice2SeriesSpecifier) (e : exn) :
  (validate fs self).1 = Raise e →
  (validate fs self).2 = self
  ∧ ∀ a, attr_get a (validate fs self).2 = attr_get a self.
Proof.
  intros H%validate_raise_inv. split; [done|]. intros a. by rewrite H.
Qed.

Lemma C10_failure_leaves_instance_witness :
  (validate fs0 (spec0 "/nowhere/prefix_" "out")).2
  = spec0 "/nowhere/prefix_" "out".
Proof.
  eapply (C10_failure_leaves_instance fs0 (spec0 "/nowhere/prefix_" "out")).
  vm_compute. reflexivity.
Defined.

(** * Further properties of the methods *)

(** ** Methods that only check *)

Section Readonly.

Lemma readonly_ret {A} (a : A) : readonly (ret a).
Proof. by intros self. Qed.

Lemma readonly_raise {A} (e : exn) : readonly (@raise A e).
Proof. by intros self. Qed.

Lemma readonly_getattr (a : attr) : readonly (getattr a).
Proof. by intros self. Qed.

Lemma readonly_bind {A B} (m : M A) (k : A → M B) :
  readonly m → (∀ a, readonly (k a)) → readonly (bind m k).
Proof.
  intros Hm Hk self. unfold bind. specialize (Hm self).
  destruct (m self) as [[a|e] self1]; cbn in *; subst; [apply Hk | done].
Qed.

Lemma readonly_when (c : bool) (body : M unit) :
  readonly body → readonly (when c body).
Proof. destruct c; [done | intros _; apply readonly_ret]. Qed.

Lemma readonly_for_each {A} (xs : list A) (body : A → M unit) :
  (∀ x, readonly (body x)) → readonly (for_each xs body).
Proof.
  intros Hb. induction xs as [|x xs IH]; [apply readonly_ret|].
  cbn [for_each]. by apply readonly_bind.
Qed.

Lemma readonly_expect_list (v : pyval) : readonly (expect_list v).
Proof. by destruct v. Qed.

Lemma readonly_expect_str (v : pyval) : readonly (expect_str v).
Proof. by destruct v. Qed.

End Readonly.

Ltac readonly_tac :=
  repeat first
    [ apply readonly_bind; [|intros ?]
    | apply readonly_when
    | apply readonly_for_each; intros ?
    | apply readonly_getattr
    | apply readonly_raise
    | apply readonly_ret
    | apply readonly_expect_list
    | apply readonly_expect_str ].

Lemma Specifier_validate_types_readonly : readonly Specifier_validate_types.
Proof. unfold Specifier_validate_types. readonly_tac. Qed.

Lemma validate_types_readonly : readonly validate_types.
Proof.
  unfold validate_types.
  apply readonly_bind; [apply Specifier_validate_types_readonly | intros ?].
  readonly_tac.
Qed.

Lemma Specifier_validate_values_readonly (fs : FileSystem) :
  readonly (Specifier_validate_values fs).
Proof. unfold Specifier_validate_values. readonly_tac. Qed.

(** ** The type phase, check by check *)

Lemma Specifier_validate_types_message (self : Slice2SeriesSpecifier) :
  Specifier_validate_types self
  = if negb (isinstance_list (input_file_list self)) then
      (Raise (TypeError "Input file list must be a list"), self)
    else if negb (str_list (input_file_list self)) then
      (Raise (TypeError "Input file names must be given as strings"), self)
    else if negb (isinstance_str (netcdf_format self)) then
      (Raise (TypeError "NetCDF format must be given as a string"), self)
    else (Return tt, self).
Proof.
  destruct self as [st ifl fmt pre suf md]; cbn [input_file_list netcdf_format].
  unfold Specifier_validate_types.
  destruct ifl as [| | | |names]; try reflexivity.
  unfold bind at 1. cbn [getattr attr_get input_file_list isinstance_list negb when].
  unfold bind at 1. cbn [ret].
  unfold bind at 1. cbn [expect_list ret].
  unfold bind at 1. rewrite for_each_isinstance_str. cbn [str_list].
  destruct (all_str names); cbn [negb]; [|reflexivity].
  by destruct fmt.
Qed.

Lemma validate_types_message (self : Slice2SeriesSpecifier) :
  validate_types self
  = match first_type_error self with
    | Some msg => (Raise (TypeError msg), self)
    | None => (Return tt, self)
    end.
Proof.
  unfold validate_types, first_type_error. unfold bind at 1.
  rewrite Specifier_validate_types_message.
  destruct (negb (isinstance_list (input_file_list self))); [done|].
  destruct (negb (str_list (input_file_list self))); [done|].
  destruct (negb (isinstance_str (netcdf_format self))); [done|].
  destruct self as [st ifl fmt pre suf md].
  cbn [output_file_prefix output_file_suffix time_variant_metadata].
  destruct pre; try reflexivity.
  destruct suf; try reflexivity.
  destruct md as [| | | |var_names]; try reflexivity.
  cbn [isinstance_str isinstance_list negb str_list].
  unfold bind at 1. cbn [getattr attr_get output_file_prefix isinstance_str negb when].
  unfold bind at 1. cbn [ret].
  unfold bind at 1. cbn [getattr attr_get output_file_suffix isinstance_str negb when].
  unfold bind at 1. cbn [ret].
  unfold bind at 1. cbn [getattr attr_get time_variant_metadata isinstance_list negb when].
  unfold bind at 1. cbn [ret].
  unfold bind at 1. cbn [expect_list ret].
  rewrite for_each_isinstance_str.
  by destruct (all_str var_names).
Qed.

Lemma first_type_error_None (self : Slice2SeriesSpecifier) :
  first_type_error self = None ↔ well_typed self = true.
Proof.
  unfold first_type_error, well_typed.
  destruct (input_file_list self) as [| | | |l]; cbn; try done.
  destruct (all_str l); cbn; [|done].
  destruct (isinstance_str (netcdf_format self)); cbn; [|done].
  destruct (isinstance_str (output_file_prefix self)); cbn; [|done].
  destruct (isinstance_str (output_file_suffix self)); cbn; [|done].
  destruct (time_variant_metadata self) as [| | | |m]; cbn; try done.
  by destruct (all_str m).
Qed.

(** [validate] in terms of the first failing type check. *)
Lemma validate_message (fs : FileSystem) (self : Slice2SeriesSpecifier) :
  validate fs self
  = match first_type_error self with
    | Some msg => (Raise (TypeError msg), self)
    | None => validate_values fs self
    end.
Proof.
  unfold validate, bind. rewrite validate_types_message.
  by destruct (first_type_error self).
Qed.

(** X1.  The type checks run in a fixed order, the three of the base class
    before the four of the subclass, and the first one that fails decides
    the message, whatever the later attributes hold.  A metadata attribute
    that is not a list is reported with the message of the file list. *)
Theorem type_checks_in_order (fs : FileSystem) (self : Slice2SeriesSpecifier) :
  (isinstance_list (input_file_list self) = false →
     validate fs self
     = (Raise (TypeError "Input file list must be a list"), self))
  ∧ (∀ l x, input_file_list self = PList l → x ∈ l →
       isinstance_str x = false →
     validate fs self
     = (Raise (TypeError "Input file names must be given as strings"), self))
  ∧ (str_list (input_file_list self) = true →
     isinstance_str (netcdf_format self) = false →
     validate fs self
     = (Raise (TypeError "NetCDF format must be given as a string"), self))
  ∧ (str_list (input_file_list self) = true →
     isinstance_str (netcdf_format self) = true →
     isinstance_str (output_file_prefix self) = false →
     validate fs self
     = (Raise (TypeError "Output file prefix must be given as a string"), self))
  ∧ (str_list (input_file_list self) = true →
     isinstance_str (netcdf_format self) = true →
     isinstance_str (output_file_prefix self) = true →
     isinstance_str (output_file_suffix self) = false →
     validate fs self
     = (Raise (TypeError "Output file suffix must be given as a string"), self))
  ∧ (str_list (input_file_list self) = true →
     isinstance_str (netcdf_format self) = true →
     isinstance_str (output_file_prefix self) = true →
     isinstance_str (output_file_suffix self) = true →
     isinstance_list (time_variant_metadata self) = false →
     validate fs self
     = (Raise (TypeError "Input file list must be a list"), self))
  ∧ (str_list (input_file_list self) = true →
     isinstance_str (netcdf_format self) = true →
     isinstance_str (output_file_prefix self) = true →
     isinstance_str (output_file_suffix self) = true →
     ∀ l x, time_variant_metadata self = PList l → x ∈ l →
       isinstance_str x = false →
     validate fs self
     = (Raise (TypeError
          "Time-variant metadata variable names must be given as strings"),
        self)).
Proof.
  rewrite validate_message. unfold first_type_error.
  assert (Hl : ∀ v, str_list v = true → isinstance_list v = true).
  { by intros []. }
  assert (Hx : ∀ l x, x ∈ l → isinstance_str x = false → all_str l = false).
  { intros l x ? ?. apply all_str_false. by exists x. }
  repeat split.
  - by intros ->.
  - intros l x -> Hin Hs. cbn. by rewrite (Hx l x).
  - intros H1 H2. by rewrite (Hl _ H1), H1, H2.
  - intros H1 H2 H3. by rewrite (Hl _ H1), H1, H2, H3.
  - intros H1 H2 H3 H4. by rewrite (Hl _ H1), H1, H2, H3, H4.
  - intros H1 H2 H3 H4 H5. by rewrite (Hl _ H1), H1, H2, H3, H4, H5.
  - intros H1 H2 H3 H4 l x -> Hin Hs. rewrite (Hl _ H1), H1, H2, H3, H4.
    cbn. by rewrite (Hx l x).
Qed.

Lemma type_checks_in_order_witness :
  validate fs0 (attr_set a_time_variant_metadata (PStr "time")
                  (spec0 "relative/prefix_" "out"))
  = (Raise (TypeError "Input file list must be a list"),
     attr_set a_time_variant_metadata (PStr "time")
       (spec0 "relative/prefix_" "out"))
  ∧ validate fs0 (attr_set a_input_file_list (PList [PStr "/data/a.nc"; PInt 7])
                    (attr_set a_output_file_suffix PNone
                       (spec0 "relative/prefix_" "out")))
    = (Raise (TypeError "Input file names must be given as strings"),
       attr_set a_input_file_list (PList [PStr "/data/a.nc"; PInt 7])
         (attr_set a_output_file_suffix PNone
            (spec0 "relative/prefix_" "out"))).
Proof.
  split.
  - destruct (type_checks_in_order fs0
      (attr_set a_time_variant_metadata (PStr "time")
         (spec0 "relative/prefix_" "out"))) as (_ & _ & _ & _ & _ & H & _).
    apply H; reflexivity.
  - destruct (type_checks_in_order fs0
      (attr_set a_input_file_list (PList [PStr "/data/a.nc"; PInt 7])
         (attr_set a_output_file_suffix PNone
            (spec0 "relative/prefix_" "out")))) as (_ & H & _).
    apply (H [PStr "/data/a.nc"; PInt 7] (PInt 7)); [reflexivity| |reflexivity].
    right. left.
Defined.

(** X2.  The type phase and the value checks of the base class only
    check: whether they return or raise, they leave every attribute as it
    was.  When the type phase returns, [validate()] is [validate_values()]. *)
Theorem checks_assign_nothing (fs : FileSystem) (self : Slice2SeriesSpecifier) :
  (validate_types self).2 = self
  ∧ (Specifier_validate_types self).2 = self
  ∧ (Specifier_validate_values fs self).2 = self
  ∧ ((validate_types self).1 = Return tt →
     validate fs self = validate_values fs self).
Proof.
  split; [apply validate_types_readonly|].
  split; [apply Specifier_validate_types_readonly|].
  split; [apply Specifier_validate_values_readonly|].
  rewrite validate_message, validate_types_message.
  by destruct (first_type_error self).
Qed.

Lemma checks_assign_nothing_witness :
  validate fs0 (spec0 "relative/prefix_" "out")
  = validate_values fs0 (spec0 "relative/prefix_" "out").
Proof.
  apply (checks_assign_nothing fs0 (spec0 "relative/prefix_" "out")).
  vm_compute. reflexivity.
Defined.

(** ** When [validate] returns *)

Lemma not_bad_values (fs : FileSystem) (names : list string)
    (fmt prefix : string) :
  ¬ bad_values fs names fmt prefix ↔
  names ≠ [] ∧ Forall (λ f, isfile fs f = true) names
  ∧ fmt ∈ valid_formats ∧ isdir fs (output_dir fs prefix) = true.
Proof.
  unfold bad_values. split.
  - intros H. split; [by auto|]. split; [|split].
    + apply Forall_forall. intros f Hf.
      destruct (isfile fs f) eqn:E; [done|]. destruct H. right. left. eauto.
    + destruct (decide (fmt ∈ valid_formats)); [done|]. destruct H. auto.
    + destruct (isdir fs _) eqn:E; [done|]. destruct H. auto.
  - intros (H1 & H2 & H3 & H4) [?|[(f & Hf & Hx)|[?|?]]]; [done| |done|congruence].
    rewrite Forall_forall in H2. rewrite H2 in Hx; done.
Qed.

(** X3.  [validate()] returns exactly on the valid instances: every
    attribute well-typed, a non-empty list of existing regular files, one of
    the three format tags, and an existing parent directory of the absolute
    prefix.  On every other instance it raises. *)
Theorem validate_returns_iff_valid (fs : FileSystem)
    (self : Slice2SeriesSpecifier) :
  completes (validate fs self) ↔
  ∃ names fmt prefix suffix metadata,
    input_file_list self = PList (PStr <$> names)
    ∧ netcdf_format self = PStr fmt
    ∧ output_file_prefix self = PStr prefix
    ∧ output_file_suffix self = PStr suffix
    ∧ time_variant_metadata self = PList (PStr <$> metadata)
    ∧ names ≠ []
    ∧ Forall (λ f, isfile fs f = true) names
    ∧ fmt ∈ ["netcdf"; "netcdf4"; "netcdf4c"]
    ∧ isdir fs (ospath.dirname (ospath.abspath (getcwd fs) prefix)) = true.
Proof.
  split.
  - intros [[] Hr]. destruct (validate fs self) as [r self'] eqn:Heq.
    cbn in Hr. subst r.
    destruct (validate_pass_inv _ _ _ _ Heq)
      as (names & fmt & prefix & suffix & Hft & [H1 H2 H3 H4] & Hok & _).
    destruct Hft as (n' & f' & p' & s' & metadata & _ & _ & _ & _ & H5).
    apply not_bad_values in Hok as (? & ? & ? & ?).
    by exists names, fmt, prefix, suffix, metadata.
  - intros (names & fmt & prefix & suffix & metadata
            & H1 & H2 & H3 & H4 & H5 & Hok).
    assert (Hwt : well_typed self = true).
    { apply fully_typed_well_typed.
      by exists names, fmt, prefix, suffix, metadata. }
    rewrite (validate_typed fs self names fmt prefix suffix); [|done..].
    rewrite value_phase_pass; [by exists tt|]. by apply not_bad_values.
Qed.

Lemma validate_returns_iff_valid_witness :
  completes (validate fs0 (spec0 "relative/prefix_" "out")).
Proof.
  apply (validate_returns_iff_valid fs0 (spec0 "relative/prefix_" "out")).
  exists ["/data/a.nc"; "/data/b.nc"], "netcdf4", "relative/prefix_", "out",
    ["time"; "lat"].
  repeat split; try reflexivity.
  - discriminate.
  - repeat constructor.
  - apply (bool_decide_unpack _). vm_compute. exact I.
Defined.

(** X4.  What holds of an instance once [validate()] has returned: the file
    list is a non-empty list of names of existing regular files, the format
    is one of the three tags, the prefix is an absolute path whose parent
    directory exists, the suffix ends in [.nc], and the metadata is a list
    of strings. *)
Theorem validated_instance_invariants (fs : FileSystem)
    (self self' : Slice2SeriesSpecifier) :
  validate fs self = (Return tt, self') →
  ∃ names fmt prefix' suffix' metadata,
    input_file_list self' = PList (PStr <$> names)
    ∧ netcdf_format self' = PStr fmt
    ∧ output_file_prefix self' = PStr prefix'
    ∧ output_file_suffix self' = PStr suffix'
    ∧ time_variant_metadata self' = PList (PStr <$> metadata)
    ∧ names ≠ []
    ∧ Forall (λ f, isfile fs f = true) names
    ∧ fmt ∈ ["netcdf"; "netcdf4"; "netcdf4c"]
    ∧ ospath.isabs prefix' = true
    ∧ isdir fs (ospath.dirname prefix') = true
    ∧ ends_in_nc suffix'.
Proof.
  intros Heq.
  destruct (validate_pass_inv _ _ _ _ Heq)
    as (names & fmt & prefix & suffix & Hft & [H1 H2 H3 H4] & Hok & ->).
  destruct Hft as (n' & f' & p' & s' & metadata & _ & _ & _ & _ & H5).
  apply not_bad_values in Hok as (? & ? & ? & ?).
  exists names, fmt, (ospath.abspath (getcwd fs) prefix),
    (normalized_suffix suffix), metadata.
  repeat split; try done.
  - apply PathFacts.abspath_isabs, getcwd_abs.
  - apply StrFacts.normalized_suffix_ends.
Qed.

Lemma validated_instance_invariants_witness :
  ∃ names fmt prefix' suffix' metadata,
    input_file_list (spec0 "/home/u/relative/prefix_" "out.nc")
    = PList (PStr <$> names)
    ∧ netcdf_format (spec0 "/home/u/relative/prefix_" "out.nc") = PStr fmt
    ∧ output_file_prefix (spec0 "/home/u/relative/prefix_" "out.nc")
      = PStr prefix'
    ∧ output_file_suffix (spec0 "/home/u/relative/prefix_" "out.nc")
      = PStr suffix'
    ∧ time_variant_metadata (spec0 "/home/u/relative/prefix_" "out.nc")
      = PList (PStr <$> metadata)
    ∧ names ≠ []
    ∧ Forall (λ f, isfile fs0 f = true) names
    ∧ fmt ∈ ["netcdf"; "netcdf4"; "netcdf4c"]
    ∧ ospath.isabs prefix' = true
    ∧ isdir fs0 (ospath.dirname prefix') = true
    ∧ ends_in_nc suffix'.
Proof.
  apply (validated_instance_invariants fs0 (spec0 "relative/prefix_" "out")).
  vm_compute. reflexivity.
Defined.

(** ** What [validate] does not look at *)

Lemma value_phase_frame (fs : FileSystem) (self : Slice2SeriesSpecifier)
    (a : attr) (v : pyval) (names : list string) (fmt prefix suffix : string) :
  a = a_specifier_type ∨ a = a_time_variant_metadata →
  value_phase fs (attr_set a v self) names fmt prefix suffix
  = ((value_phase fs self names fmt prefix suffix).1,
     attr_set a v (value_phase fs self names fmt prefix suffix).2).
Proof.
  intros Ha. unfold value_phase.
  destruct (Nat.eqb (length names) 0); [done|].
  destruct (first_missing fs names); [done|].
  destruct (negb (str_in fmt valid_formats)); [done|].
  destruct (negb (isdir fs _)); [done|].
  cbn [fst snd]. f_equal. by destruct Ha as [-> | ->], self.
Qed.

Lemma validate_frame_unread (fs : FileSystem) (self : Slice2SeriesSpecifier)
    (a : attr) (v : pyval) :
  a = a_specifier_type ∨ a = a_time_variant_metadata →
  first_type_error (attr_set a v self) = first_type_error self →
  validate fs (attr_set a v self)
  = ((validate fs self).1, attr_set a v (validate fs self).2).
Proof.
  intros Ha Hte. rewrite !validate_message, Hte.
  destruct (first_type_error self) eqn:E; [done|].
  apply first_type_error_None in E.
  destruct (well_typed_view self E) as (names & fmt & prefix & suffix & Hv).
  assert (Hv' : typed_view (attr_set a v self) names fmt prefix suffix).
  { destruct Hv. by destruct Ha as [-> | ->]. }
  rewrite (validate_values_spec _ _ _ _ _ _ Hv).
  rewrite (validate_values_spec _ _ _ _ _ _ Hv').
  by apply value_phase_frame.
Qed.

(** X5.  [validate()] never reads [specifier_type]: with any other value
    in that attribute, of any type, the outcome is the same and so is every
    other attribute afterwards. *)
Theorem validate_ignores_specifier_type (fs : FileSystem)
    (self : Slice2SeriesSpecifier) (v : pyval) :
  validate fs (attr_set a_specifier_type v self)
  = ((validate fs self).1, attr_set a_specifier_type v (validate fs self).2).
Proof. apply validate_frame_unread; [by left | by destruct self]. Qed.

(** X6.  Of [time_variant_metadata], [validate()] checks the type only:
    the names in it are compared with nothing.  Replacing a list of strings
    by any other list of strings, the empty one included, leaves the
    outcome and every other attribute the same. *)
Theorem validate_ignores_metadata_names (fs : FileSystem)
    (self : Slice2SeriesSpecifier) (metadata metadata' : list string) :
  time_variant_metadata self = PList (PStr <$> metadata) →
  validate fs (attr_set a_time_variant_metadata (PList (PStr <$> metadata')) self)
  = ((validate fs self).1,
     attr_set a_time_variant_metadata (PList (PStr <$> metadata'))
       (validate fs self).2).
Proof.
  intros Hm. apply validate_frame_unread; [by right|].
  destruct self as [st ifl fmt pre suf md]. cbn in Hm. subst md.
  unfold first_type_error.
  cbn [attr_set input_file_list netcdf_format output_file_prefix
       output_file_suffix time_variant_metadata isinstance_list str_list negb].
  by rewrite !all_str_fmap.
Qed.

Lemma validate_ignores_metadata_names_witness :
  validate fs0 (attr_set a_time_variant_metadata (PList (PStr <$> []))
                  (spec0 "relative/prefix_" "out"))
  = ((validate fs0 (spec0 "relative/prefix_" "out")).1,
     attr_set a_time_variant_metadata (PList (PStr <$> []))
       (validate fs0 (spec0 "relative/prefix_" "out")).2).
Proof.
  apply (validate_ignores_metadata_names fs0 (spec0 "relative/prefix_" "out")
           ["time"; "lat"] []).
  reflexivity.
Defined.

Lemma find_agree {A} (f g : A → bool) (l : list A) :
  (∀ x, x ∈ l → f x = g x) → List.find f l = List.find g l.
Proof.
  induction l as [|y l IH]; intros H; [done|]. cbn.
  rewrite <- (H y) by left. destruct (f y); [done|].
  apply IH. intros x Hx. apply H. by right.
Qed.

Lemma abspath_of_absolute (cwd cwd' p : string) :
  ospath.isabs p = true → ospath.abspath cwd p = ospath.abspath cwd' p.
Proof. unfold ospath.abspath. by intros ->. Qed.

(** X7.  The filesystem matters to [validate()] through three questions
    only: whether each listed name is a regular file, whether the parent
    directory of the absolute prefix exists, and, for a relative prefix,
    what the working directory is.  Two filesystems that answer these alike
    give the same outcome and the same instance. *)
Theorem validate_filesystem_footprint (fs fs' : FileSystem)
    (self : Slice2SeriesSpecifier) :
  (∀ names f, input_file_list self = PList (PStr <$> names) → f ∈ names →
     isfile fs f = isfile fs' f) →
  (∀ prefix, output_file_prefix self = PStr prefix →
     (ospath.isabs prefix = true ∨ getcwd fs = getcwd fs')
     ∧ isdir fs (ospath.dirname (ospath.abspath (getcwd fs) prefix))
       = isdir fs' (ospath.dirname (ospath.abspath (getcwd fs) prefix))) →
  validate fs self = validate fs' self.
Proof.
  intros Hfiles Hdir. rewrite !validate_message.
  destruct (first_type_error self) eqn:E; [done|].
  apply first_type_error_None in E.
  destruct (well_typed_view self E) as (names & fmt & prefix & suffix & Hv).
  rewrite !(validate_values_spec _ _ _ _ _ _ Hv). destruct Hv as [H1 H2 H3 H4].
  destruct (Hdir prefix H3) as [Hcwd Hd].
  assert (Habs : ospath.abspath (getcwd fs') prefix
                 = ospath.abspath (getcwd fs) prefix).
  { destruct Hcwd as [?| ->]; [by apply abspath_of_absolute | done]. }
  unfold value_phase, first_missing. rewrite Habs, Hd.
  rewrite (find_agree (λ f, negb (isfile fs f)) (λ f, negb (isfile fs' f)));
    [done|].
  intros f Hf. by rewrite (Hfiles names f).
Qed.

Lemma validate_filesystem_footprint_witness :
  validate fs0 (spec0 "/home/u/relative/prefix_" "out")
  = validate fs1 (spec0 "/home/u/relative/prefix_" "out").
Proof.
  apply validate_filesystem_footprint.
  - intros names f H Hf. injection H as H.
    apply (fmap_PStr_inj ["/data/a.nc"; "/data/b.nc"]) in H. subst names.
    apply elem_of_cons in Hf as [-> | Hf]; [reflexivity|].
    apply elem_of_cons in Hf as [-> | Hf]; [reflexivity|].
    by apply elem_of_nil in Hf.
  - intros prefix [= <-]. split; [by left | vm_compute; reflexivity].
Defined.

(** ** The prefix a successful [validate] leaves *)

Lemma abspath_absolute_fixed (cwd cwd' p : string) :
  ospath.isabs cwd = true →
  ospath.abspath cwd' (ospath.abspath cwd p) = ospath.abspath cwd p.
Proof.
  intros Hcwd.
  rewrite (abspath_of_absolute cwd' cwd) by by apply PathFacts.abspath_isabs.
  by apply PathFacts.abspath_idem.
Qed.

(** X8.  Once [validate()] has returned, the instance no longer depends on
    the working directory: under any filesystem and working directory in
    which the listed files are still regular files and the parent directory
    of the stored prefix still exists, [validate()] returns again and
    changes nothing. *)
Theorem validated_instance_is_portable (fs fs' : FileSystem)
    (self self' : Slice2SeriesSpecifier) (names : list string)
    (prefix' : string) :
  validate fs self = (Return tt, self') →
  input_file_list self' = PList (PStr <$> names) →
  output_file_prefix self' = PStr prefix' →
  Forall (λ f, isfile fs' f = true) names →
  isdir fs' (ospath.dirname prefix') = true →
  validate fs' self' = (Return tt, self').
Proof.
  intros Heq Hn Hp Hfiles Hd.
  destruct (validate_pass_inv _ _ _ _ Heq)
    as (names0 & fmt & prefix & suffix & Hft & Hv & Hok & ->).
  set (abs_prefix := ospath.abspath (getcwd fs) prefix) in *.
  assert (Hv' : typed_view (normalized fs self prefix suffix) names0 fmt
                  abs_prefix (normalized_suffix suffix)).
  { destruct Hv. by split. }
  assert (names0 = names) as ->.
  { destruct Hv' as [H1 _ _ _]. rewrite H1 in Hn. injection Hn as Hn.
    by apply fmap_PStr_inj. }
  assert (abs_prefix = prefix') as Hpre.
  { destruct Hv' as [_ _ H3 _]. congruence. }
  assert (Hfix : ospath.abspath (getcwd fs') abs_prefix = abs_prefix).
  { apply abspath_absolute_fixed, getcwd_abs. }
  apply not_bad_values in Hok as (Hne & _ & Hfmt & _).
  rewrite (validate_typed _ _ _ _ _ _ Hv').
  - rewrite value_phase_pass.
    + f_equal. unfold normalized. rewrite Hfix.
      rewrite (StrFacts.normalized_suffix_fixed (normalized_suffix suffix))
        by apply StrFacts.normalized_suffix_ends.
      by destruct self.
    + apply not_bad_values. unfold output_dir. rewrite Hfix, Hpre. done.
  - rewrite (typed_view_well_typed _ _ _ _ _ Hv').
    apply fully_typed_well_typed in Hft.
    by rewrite (typed_view_well_typed _ _ _ _ _ Hv) in Hft.
Qed.

Lemma validated_instance_is_portable_witness :
  validate fs1 (spec0 "/home/u/relative/prefix_" "out.nc")
  = (Return tt, spec0 "/home/u/relative/prefix_" "out.nc").
Proof.
  apply (validated_instance_is_portable fs0 fs1
           (spec0 "relative/prefix_" "out")
           (spec0 "/home/u/relative/prefix_" "out.nc")
           ["/data/a.nc"; "/data/b.nc"] "/home/u/relative/prefix_").
  - vm_compute. reflexivity.
  - reflexivity.
  - reflexivity.
  - repeat constructor.
  - vm_compute. reflexivity.
Defined.

Module SlashFacts.
Import StrFacts PathFacts.

Lemma has_slash_app (a b : string) :
  Str.has_slash (a +:+ b) = Str.has_slash a || Str.has_slash b.
Proof.
  induction a as [|c a IH]; [done|].
  rewrite app_cons. cbn [Str.has_slash]. by rewrite IH, orb_assoc.
Qed.

Lemma app_ends_in_slash (a b : string) :
  b ≠ EmptyString → ends_in_slash (a +:+ b) → ends_in_slash b.
Proof.
  intros Hb. induction a as [|c a IH]; [done|].
  rewrite app_cons. intros [[|d stem] Hs].
  - rewrite app_empty_l in Hs. injection Hs as _ Hs.
    destruct a; [by rewrite app_empty_l in Hs | by rewrite app_cons in Hs].
  - rewrite app_cons in Hs. injection Hs as _ Hs. apply IH. by exists stem.
Qed.

Lemma plain_no_trailing_slash (c : string) : plain c → ¬ ends_in_slash c.
Proof.
  intros (_ & _ & _ & Hs) [stem ->]. rewrite has_slash_app in Hs.
  apply orb_false_elim in Hs as [_ Hs]. discriminate Hs.
Qed.

Lemma join_plain_nonempty (c : string) (cs : list string) :
  plain c → Str.join (c :: cs) ≠ EmptyString.
Proof.
  intros (Hne & _). destruct c as [|d c]; [done|].
  destruct cs; cbn [Str.join]; [done | by rewrite app_cons].
Qed.

Lemma join_plain_no_trailing_slash (cs : list string) :
  Forall plain cs → cs ≠ [] → ¬ ends_in_slash (Str.join cs).
Proof.
  induction cs as [|x [|y rest] IH]; intros Hall Hne; [done| |].
  - cbn. apply plain_no_trailing_slash. by inversion Hall.
  - inversion Hall as [|? ? Hx Hrest]; subst.
    change (Str.join (x :: y :: rest))
      with (x +:+ String Str.slash (Str.join (y :: rest))).
    intros [[|d stem] Hs]%app_ends_in_slash; [| |done].
    + rewrite app_empty_l in Hs. injection Hs as Hs.
      inversion Hrest; subst. by eapply join_plain_nonempty.
    + rewrite app_cons in Hs. injection Hs as _ Hs.
      apply IH; [done | done | by exists stem].
Qed.

(** A normalised absolute path is all slashes or does not end in one. *)
Lemma normpath_abs_trailing_slash (p : string) :
  ospath.isabs p = true →
  ospath.normpath p = "/" ∨ ospath.normpath p = "//"
  ∨ ¬ ends_in_slash (ospath.normpath p).
Proof.
  intros Habs. rewrite normpath_abs by done.
  assert (Hcs : Forall plain
            (ospath.norm_comps (ospath.initial_slashes p) (Str.split p))).
  { apply norm_comps_plain.
    destruct (initial_slashes_abs _ Habs) as [-> | ->]; lia. }
  destruct (ospath.norm_comps _ (Str.split p)) as [|c cs] eqn:E.
  - destruct (initial_slashes_abs _ Habs) as [-> | ->]; auto.
  - right. right. intros Hs%app_ends_in_slash.
    + by eapply join_plain_no_trailing_slash.
    + apply join_plain_nonempty. by inversion Hcs.
Qed.

End SlashFacts.

(** X9.  The prefix a successful [validate()] leaves does not end in a
    slash, unless it is the root ([/] or [//]): a trailing slash in the
    given prefix is dropped, so a prefix given as a directory name with a
    slash comes back as that name without it. *)
Theorem validated_prefix_has_no_trailing_slash (fs : FileSystem)
    (self self' : Slice2SeriesSpecifier) (prefix' : string) :
  validate fs self = (Return tt, self') →
  output_file_prefix self' = PStr prefix' →
  prefix' = "/" ∨ prefix' = "//" ∨ ¬ ends_in_slash prefix'.
Proof.
  intros Heq Hp.
  destruct (validate_pass_inv _ _ _ _ Heq)
    as (names & fmt & prefix & suffix & _ & _ & _ & ->).
  cbn in Hp. injection Hp as <-. unfold ospath.abspath in *.
  apply SlashFacts.normpath_abs_trailing_slash.
  destruct (ospath.isabs prefix) eqn:E; [done|].
  apply PathFacts.join_abs, getcwd_abs.
Qed.

Lemma validated_prefix_has_no_trailing_slash_witness :
  output_file_prefix (validate fs0 (spec0 "relative/" "out")).2
  = PStr "/home/u/relative"
  ∧ ("/home/u/relative" = "/" ∨ "/home/u/relative" = "//"
     ∨ ¬ ends_in_slash "/home/u/relative").
Proof.
  split; [vm_compute; reflexivity|].
  apply (validated_prefix_has_no_trailing_slash fs0 (spec0 "relative/" "out")
           (validate fs0 (spec0 "relative/" "out")).2).
  - vm_compute. reflexivity.
  - vm_compute. reflexivity.
Defined.

(** ** Short suffixes *)

Lemma ends_in_nc_length (s : string) :
  ends_in_nc s → (3 ≤ String.length s)%nat.
Proof. intros [stem ->]. rewrite StrFacts.length_app. cbn. lia. Qed.

(** X10.  A suffix of fewer than three characters, the empty one included,
    cannot end in [.nc]: the slice [suffix[-3:]] is then the whole suffix,
    and a successful [validate()] appends [.nc] to it. *)
Theorem short_suffix_is_extended (fs : FileSystem)
    (self self' : Slice2SeriesSpecifier) (suffix : string) :
  output_file_suffix self = PStr suffix →
  (String.length suffix < 3)%nat →
  validate fs self = (Return tt, self') →
  Str.slice_from (-3) suffix = suffix
  ∧ output_file_suffix self' = PStr (suffix +:+ ".nc").
Proof.
  intros Hs Hlen Heq. split.
  - rewrite StrFacts.slice_from_m3.
    replace (String.length suffix - 3)%nat with 0%nat by lia.
    rewrite Nat.sub_0_r. apply StrFacts.substring_all.
  - destruct (validate_pass_inv _ _ _ _ Heq)
      as (names & fmt & prefix & sfx & _ & Hv & _ & ->).
    assert (sfx = suffix) as -> by (destruct Hv; congruence).
    cbn. f_equal. apply StrFacts.normalized_suffix_append.
    intros H%ends_in_nc_length. lia.
Qed.

Lemma short_suffix_is_extended_witness :
  output_file_suffix (validate fs0 (spec0 "relative/prefix_" "nc")).2
  = PStr "nc.nc".
Proof.
  apply (short_suffix_is_extended fs0 (spec0 "relative/prefix_" "nc")
           (validate fs0 (spec0 "relative/prefix_" "nc")).2 "nc").
  - reflexivity.
  - cbn. lia.
  - vm_compute. reflexivity.
Defined.

(** ** Construction followed by validation *)

(** X11.  An instance constructed without [infiles] receives the shared
    default list: its file list is what that list holds at the time of the
    call.  While that list is empty, as the [def] creates it, the instance
    never passes [validate()], on any filesystem; when the keyword
    arguments given are well-typed, the error is the [ValueError] of the
    empty file list. *)
Theorem construction_without_infiles_fails (fs : FileSystem)
    (d : default_lists) (kwargs : gmap string pyval)
    (self : Slice2SeriesSpecifier) :
  create_specifier d (PStr "slice-to-series") kwargs = Return self →
  kwargs !! "infiles" = None →
  input_file_list self = PList (default_infiles d)
  ∧ (default_infiles d = [] →
     ¬ completes (validate fs self)
     ∧ (fully_typed self →
        validate fs self
        = (Raise (ValueError "There must be at least one input file given."),
           self))).
Proof.
  rewrite create_slice_to_series. intros Hnew Hk.
  apply new_returns in Hnew as (_ & Hl & _). rewrite Hk in Hl. cbn in Hl.
  split; [done|]. intros Hd. rewrite Hd in Hl. split.
  - intros [[] Hr]. destruct (validate fs self) as [r self'] eqn:Heq.
    cbn in Hr. subst r.
    destruct (validate_pass_inv _ _ _ _ Heq)
      as (names & fmt & prefix & suffix & _ & [H1 _ _ _] & Hok & _).
    rewrite Hl in H1. injection H1 as H1. destruct names; [|done].
    apply Hok. by left.
  - intros Hft. pose proof Hft as Hwt%fully_typed_well_typed.
    destruct (well_typed_view self Hwt) as (names & fmt & prefix & suffix & Hv).
    rewrite (validate_typed _ _ _ _ _ _ Hv Hwt).
    apply value_phase_empty. destruct Hv as [H1 _ _ _].
    rewrite Hl in H1. injection H1 as H1. by destruct names.
Qed.

Lemma construction_without_infiles_fails_witness :
  validate fs0 default_instance
  = (Raise (ValueError "There must be at least one input file given."),
     default_instance).
Proof.
  destruct (construction_without_infiles_fails fs0 initial_defaults ∅
              default_instance) as (_ & H).
  - vm_compute. reflexivity.
  - reflexivity.
  - destruct H as (_ & H); [reflexivity|].
    apply H. by exists [], "netcdf4c", "tseries.", ".nc", [].
Defined.

(** X12.  The string defaults are valid, and so is the default metadata
    list while it holds strings only (it holds nothing unless a caller has
    appended to it): constructed through the factory with [infiles] alone,
    a non-empty list of existing regular files, the instance passes
    [validate()] whenever the directory that the default prefix [tseries.]
    resolves into exists.  It is left with the format [netcdf4c], the
    absolute form of [tseries.], the suffix [.nc] and the metadata of the
    shared default list. *)
Theorem construction_with_infiles_validates (fs : FileSystem)
    (d : default_lists) (names metadata : list string) :
  names ≠ [] →
  Forall (λ f, isfile fs f = true) names →
  isdir fs (ospath.dirname (ospath.abspath (getcwd fs) "tseries.")) = true →
  default_metadata d = PStr <$> metadata →
  ∃ self self',
    create_specifier d (PStr "slice-to-series")
      {["infiles" := PList (PStr <$> names)]} = Return self
    ∧ validate fs self = (Return tt, self')
    ∧ input_file_list self' = PList (PStr <$> names)
    ∧ netcdf_format self' = PStr "netcdf4c"
    ∧ output_file_prefix self' = PStr (ospath.abspath (getcwd fs) "tseries.")
    ∧ output_file_suffix self' = PStr ".nc"
    ∧ time_variant_metadata self' = PList (PStr <$> metadata).
Proof.
  intros Hne Hfiles Hd Hmd.
  set (kwargs := {["infiles" := PList (PStr <$> names)]} : gmap string pyval).
  assert (Hnew : new_Slice2SeriesSpecifier d kwargs
    = Return {| specifier_type := PStr "undetermined";
                input_file_list := PList (PStr <$> names);
                netcdf_format := PStr "netcdf4c";
                output_file_prefix := PStr "tseries.";
                output_file_suffix := PStr ".nc";
                time_variant_metadata := PList (PStr <$> metadata) |}).
  { unfold new_Slice2SeriesSpecifier. rewrite bool_decide_eq_true_2.
    - rewrite init_result. cbn [snd]. unfold kwargs.
      rewrite lookup_singleton_eq. rewrite !lookup_singleton_ne by done.
      cbn [default]. by rewrite Hmd.
    - unfold kwargs. rewrite dom_singleton_L. set_solver. }
  eexists. exists
    {| specifier_type := PStr "undetermined";
       input_file_list := PList (PStr <$> names);
       netcdf_format := PStr "netcdf4c";
       output_file_prefix := PStr (ospath.abspath (getcwd fs) "tseries.");
       output_file_suffix := PStr ".nc";
       time_variant_metadata := PList (PStr <$> metadata) |}.
  split; [exact Hnew|]. split; [|done].
  rewrite (validate_typed fs _ names "netcdf4c" "tseries." ".nc"); [|done|].
  - rewrite value_phase_pass; [reflexivity|].
    apply not_bad_values. repeat split; try done. set_solver.
  - apply fully_typed_well_typed.
    by exists names, "netcdf4c", "tseries.", ".nc", metadata.
Qed.

Lemma construction_with_infiles_validates_witness :
  ∃ self self',
    create_specifier
      {| default_infiles := []; default_metadata := PStr <$> ["time"] |}
      (PStr "slice-to-series")
      {["infiles" := PList (PStr <$> ["/data/a.nc"])]} = Return self
    ∧ validate fs0 self = (Return tt, self')
    ∧ input_file_list self' = PList (PStr <$> ["/data/a.nc"])
    ∧ netcdf_format self' = PStr "netcdf4c"
    ∧ output_file_prefix self'
      = PStr (ospath.abspath (getcwd fs0) "tseries.")
    ∧ output_file_suffix self' = PStr ".nc"
    ∧ time_variant_metadata self' = PList (PStr <$> ["time"]).
Proof.
  apply (construction_with_infiles_validates fs0
           {| default_infiles := []; default_metadata := PStr <$> ["time"] |}
           ["/data/a.nc"] ["time"]).
  - discriminate.
  - repeat constructor.
  - vm_compute. reflexivity.
  - reflexivity.
Defined.
